(** * Aether OS Python SDK: response normalisation, login, URL quoting and
    the event stream reader

    A shallow embedding of [sdk-python/aether] (client.py, async_client.py,
    namespaces.py, events.py, exceptions.py) together with models of the
    library calls those files make ([json.loads], [urllib.parse.quote],
    [httpx.Response], [httpx_sse]'s decoder).

    Conventions.
    - A Python [str] is a Rocq [string] holding its UTF-8 bytes.
    - A Python object that can reach the modelled code (a decoded JSON value,
      a [str], [None]) is a [pyval].
    - A [dict] with string keys is a [gmap string _]: equality of maps is
      Python's [==] on dicts, and inserting an existing key overwrites it.
    - An operation that can raise returns an [outcome].
    - Interpreter resource limits (recursion depth, the digit limit of
      [int]) are outside the model. *)

From Stdlib Require Import ZArith Ascii String List.
From stdpp Require Import base option list gmap strings fin_maps pretty.

Local Open Scope string_scope.
Local Open Scope list_scope.
Local Open Scope Z_scope.

(* ===================================================================== *)
(** ** Python values *)
(* ===================================================================== *)

Module Py.

(** A [float] produced by the JSON decoder, kept as the decimal literal it
    was read from ([FDec m e] stands for [m * 10^e] before rounding to a
    double), or one of the three non-finite constants the decoder accepts. *)
Inductive pyfloat : Type :=
| FDec (m e : Z)
| FNaN
| FInf (negative : bool).

Local Unset Elimination Schemes.

Inductive pyval : Type :=
| PyNone
| PyBool (b : bool)
| PyInt (z : Z)
| PyFloat (f : pyfloat)
| PyStr (s : string)
| PyList (l : list pyval)
| PyDict (d : gmap string pyval).

Local Set Elimination Schemes.

(** [float(lit) == 0.0]: the literal is zero, or it rounds to zero
    (round-half-even sends every magnitude up to [2^-1075] to [0.0]). *)
Definition float_is_zero (f : pyfloat) : bool :=
match f with
| FDec m e =>
    (m =? 0) || ((e <? 0) && (Z.abs m * 2 ^ 1075 <=? 10 ^ (- e)))
| FNaN | FInf _ => false
end.

(** [bool(v)], as used by [if v:] and [v or w]. *)
Definition truthy (v : pyval) : bool :=
match v with
| PyNone => false
| PyBool b => b
| PyInt z => negb (z =? 0)
| PyFloat f => negb (float_is_zero f)
| PyStr s => negb (String.eqb s EmptyString)
| PyList l => match l with [] => false | _ :: _ => true end
| PyDict d => negb (bool_decide (d = ∅))
end.

(** [v or w] *)
Definition py_or (v w : pyval) : pyval := if truthy v then v else w.

(** [isinstance(v, dict)] *)
Definition is_dict (v : pyval) : bool :=
match v with PyDict _ => true | _ => false end.

(** Exceptions that the modelled code raises or lets through. *)
Record AetherError : Type := mkAetherError {
  message : pyval;
  code : pyval;
  status : Z
}.

Inductive exn : Type :=
| ExAether (e : AetherError)      (* aether.exceptions.AetherError *)
| AttributeError                  (* attribute lookup on the wrong type *)
| JSONDecodeError                 (* json.JSONDecodeError *)
| HTTPStatusError (st : Z)        (* httpx.HTTPStatusError *)
| TransportError.                 (* any fault raised by httpx itself *)

Inductive outcome (A : Type) : Type :=
| Return (a : A)
| Raise (e : exn).
Arguments Return {A} a.
Arguments Raise {A} e.

#[export] Instance outcome_ret : MRet outcome := fun A a => Return a.
#[export] Instance outcome_bind : MBind outcome := fun A B f m =>
  match m with
  | Return a => f a
  | Raise e => Raise e
  end.

(** [d.get(k, default)] on a dict. *)
Definition dict_get (d : gmap string pyval) (k : string) (dflt : pyval) : pyval :=
default dflt (d !! k).

(** [obj.get(k)]: only a dict has the method; [d.get(k)] is [None] for a
    missing key. *)
Definition get_method (obj : pyval) (k : string) : outcome pyval :=
match obj with
| PyDict d => Return (dict_get d k PyNone)
| _ => Raise AttributeError
end.

(** [s.rstrip("/")] *)
Fixpoint rstrip_slash (s : string) : string :=
match s with
| EmptyString => EmptyString
| String c s' =>
    match rstrip_slash s' with
    | EmptyString => if Ascii.eqb c "/" then EmptyString else String c EmptyString
    | r => String c r
    end
end.

End Py.
Export Py.

(* ===================================================================== *)
(** ** The JSON decoder ([json.loads], strict mode, default hooks) *)
(* ===================================================================== *)

Module Json.

Definition dq : ascii := "034".
Definition backslash : ascii := "092".

(** The text of a JSON string literal holding [s] (no escaping: for
    writing test inputs whose strings need none). *)
Definition quoted (s : string) : string := String dq s +:+ String dq EmptyString.

Definition code_of (c : ascii) : Z := Z.of_N (N_of_ascii c).
Definition chr (n : Z) : ascii := ascii_of_N (Z.to_N n).

(** [WHITESPACE]: space, tab, line feed, carriage return. *)
Definition is_ws (c : ascii) : bool :=
let n := code_of c in (n =? 32) || (n =? 9) || (n =? 10) || (n =? 13).

Fixpoint skip_ws (s : string) : string :=
match s with
| String c s' => if is_ws c then skip_ws s' else s
| EmptyString => s
end.

Fixpoint strip_prefix (p s : string) : option string :=
match p, s with
| EmptyString, _ => Some s
| String a p', String b s' => if Ascii.eqb a b then strip_prefix p' s' else None
| String _ _, EmptyString => None
end.

Definition digit_val (c : ascii) : option Z :=
let n := code_of c in
if (48 <=? n) && (n <=? 57) then Some (n - 48) else None.

Definition hex_val (c : ascii) : option Z :=
let n := code_of c in
if (48 <=? n) && (n <=? 57) then Some (n - 48)
else if (65 <=? n) && (n <=? 70) then Some (n - 55)
else if (97 <=? n) && (n <=? 102) then Some (n - 87)
else None.

Definition hex4 (a b c d : ascii) : option Z :=
x1 ← hex_val a; x2 ← hex_val b; x3 ← hex_val c; x4 ← hex_val d;
Some (((x1 * 16 + x2) * 16 + x3) * 16 + x4).

(** UTF-8 bytes of one code point (a lone surrogate keeps its three-byte
    form, so distinct code points stay distinct). *)
Definition utf8 (u : Z) : string :=
if u <? 128 then String (chr u) EmptyString
else if u <? 2048 then
  String (chr (192 + u / 64)) (String (chr (128 + u mod 64)) EmptyString)
else if u <? 65536 then
  String (chr (224 + u / 4096))
    (String (chr (128 + (u / 64) mod 64))
       (String (chr (128 + u mod 64)) EmptyString))
else
  String (chr (240 + u / 262144))
    (String (chr (128 + (u / 4096) mod 64))
       (String (chr (128 + (u / 64) mod 64))
          (String (chr (128 + u mod 64)) EmptyString))).

(** The [BACKSLASH] table of json.decoder. *)
Definition escape_char (e : ascii) : option ascii :=
let n := code_of e in
if n =? 34 then Some dq
else if n =? 92 then Some backslash
else if n =? 47 then Some "/"%char
else if n =? 98 then Some "008"%char
else if n =? 102 then Some "012"%char
else if n =? 110 then Some "010"%char
else if n =? 114 then Some "013"%char
else if n =? 116 then Some "009"%char
else None.

Definition is_high_surrogate (u : Z) : bool := (55296 <=? u) && (u <=? 56319).
Definition is_low_surrogate (u : Z) : bool := (56320 <=? u) && (u <=? 57343).

Definition prepend (p : string) (r : string * string) : string * string :=
(p +:+ r.1, r.2).

(** [scanstring]: [s] starts just after the opening quote; the result is the
    decoded content and the text after the closing quote. [None] is
    JSONDecodeError (unterminated string, control character, bad escape). *)
Fixpoint scanstring (s : string) : option (string * string) :=
match s with
| EmptyString => None
| String c s1 =>
  if Ascii.eqb c dq then Some (EmptyString, s1)
  else if Ascii.eqb c backslash then
    match s1 with
    | EmptyString => None
    | String e s2 =>
      if Ascii.eqb e "u" then
        match s2 with
        | String h1 (String h2 (String h3 (String h4 s3))) =>
          match hex4 h1 h2 h3 h4 with
          | None => None
          | Some uni =>
            if is_high_surrogate uni then
              match s3 with
              | String b (String u (String k1 (String k2 (String k3 (String k4 s4))))) =>
                if Ascii.eqb b backslash && Ascii.eqb u "u" then
                  match hex4 k1 k2 k3 k4 with
                  | None => None
                  | Some uni2 =>
                    if is_low_surrogate uni2 then
                      prepend (utf8 (65536 + ((uni - 55296) * 1024 + (uni2 - 56320))))
                        <$> scanstring s4
                    else prepend (utf8 uni) <$> scanstring s3
                  end
                else prepend (utf8 uni) <$> scanstring s3
              | _ => prepend (utf8 uni) <$> scanstring s3
              end
            else prepend (utf8 uni) <$> scanstring s3
          end
        | _ => None
        end
      else
        match escape_char e with
        | Some ch => prepend (String ch EmptyString) <$> scanstring s2
        | None => None
        end
    end
  else if code_of c <? 32 then None
  else prepend (String c EmptyString) <$> scanstring s1
end.

(** The longest run of [0-9] at the head of [s]: its digits appended to
    [acc], the length of the run, and the rest. *)
Fixpoint digits (s : string) (acc len : Z) : Z * Z * string :=
match s with
| String c s' =>
  match digit_val c with
  | Some d => digits s' (acc * 10 + d) (len + 1)
  | None => (acc, len, s)
  end
| EmptyString => (acc, len, s)
end.

(** [NUMBER_RE]: an optional minus sign, then 0 or a nonzero digit followed
    by digits; an optional fraction (a dot and at least one digit); an
    optional exponent (e or E, an optional sign, at least one digit). *)

(** The optional minus sign. *)
Definition sign_part (s : string) : bool * string :=
match s with
| String c s' => if Ascii.eqb c "-" then (true, s') else (false, s)
| EmptyString => (false, s)
end.

(** The integer part: its value and the rest. *)
Definition int_part (s : string) : option (Z * string) :=
match s with
| EmptyString => None
| String c s2 =>
  match digit_val c with
  | None => None
  | Some d =>
    if d =? 0 then Some (0, s2)
    else let '(ip, _, s3) := digits s2 d 0 in Some (ip, s3)
  end
end.

(** The fraction, if one matches: the digits of [ip] followed by those of
    the fraction, the number of fraction digits, and the rest. *)
Definition frac_part (ip : Z) (s : string) : option (Z * Z * string) :=
match s with
| String p s' =>
  if Ascii.eqb p "." then
    let '(m, k, r) := digits s' ip 0 in
    if 0 <? k then Some (m, k, r) else None
  else None
| EmptyString => None
end.

(** The exponent, if one matches: its value and the rest. *)
Definition exp_part (s : string) : option (Z * string) :=
match s with
| String e s' =>
  if Ascii.eqb e "e" || Ascii.eqb e "E" then
    let '(eneg, s'') :=
      match s' with
      | String g t =>
        if Ascii.eqb g "-" then (true, t)
        else if Ascii.eqb g "+" then (false, t)
        else (false, s')
      | EmptyString => (false, s')
      end in
    let '(v, k, r) := digits s'' 0 0 in
    if 0 <? k then Some ((if eneg : bool then - v else v), r) else None
  else None
| EmptyString => None
end.

(** The value is an [int] when neither fraction nor exponent matched, else
    a [float]. *)
Definition match_number (s : string) : option (pyval * string) :=
let '(neg, s1) := sign_part s in
match int_part s1 with
| None => None
| Some (ip, s3) =>
  let frac := frac_part ip s3 in
  let '(m, flen, s4) := default (ip, 0, s3) frac in
  let expo := exp_part s4 in
  let sign := if neg : bool then -1 else 1 in
  match frac, expo with
  | None, None => Some (PyInt (sign * ip), s3)
  | _, Some (ev, r) => Some (PyFloat (FDec (sign * m) (ev - flen)), r)
  | Some _, None => Some (PyFloat (FDec (sign * m) (- flen)), s4)
  end
end.

(** The constants and numbers [scan_once] tries after strings, objects and
    arrays, in its order. *)
Definition scan_atom (s : string) : option (pyval * string) :=
match strip_prefix "null" s with
| Some r => Some (PyNone, r)
| None =>
match strip_prefix "true" s with
| Some r => Some (PyBool true, r)
| None =>
match strip_prefix "false" s with
| Some r => Some (PyBool false, r)
| None =>
match match_number s with
| Some x => Some x
| None =>
match strip_prefix "NaN" s with
| Some r => Some (PyFloat FNaN, r)
| None =>
match strip_prefix "Infinity" s with
| Some r => Some (PyFloat (FInf false), r)
| None =>
match strip_prefix "-Infinity" s with
| Some r => Some (PyFloat (FInf true), r)
| None => None
end end end end end end end.

(** Result of scanning one value: the value and the remaining text, a
    decode error, or an exhausted recursion budget ([loads] gives a budget
    that is never exhausted, see [loads_budget]). *)
Inductive scan : Type :=
| Scanned (v : pyval) (rest : string)
| Invalid
| Starved.

(** [scan_once], [JSONObject] (entered after the opening quote of a key,
    with the pairs read so far) and [JSONArray] (entered at the start of an
    element). *)
Fixpoint scan_once (n : nat) (s : string) {struct n} : scan :=
match n with
| O => Starved
| S n =>
  match s with
  | EmptyString => Invalid
  | String c s' =>
    if Ascii.eqb c dq then
      match scanstring s' with
      | Some (str, r) => Scanned (PyStr str) r
      | None => Invalid
      end
    else if Ascii.eqb c "{" then
      match skip_ws s' with
      | String c1 s1 =>
        if Ascii.eqb c1 "}" then Scanned (PyDict ∅) s1
        else if Ascii.eqb c1 dq then JSONObject n s1 ∅
        else Invalid
      | EmptyString => Invalid
      end
    else if Ascii.eqb c "[" then
      match skip_ws s' with
      | String c1 s1 =>
        if Ascii.eqb c1 "]" then Scanned (PyList []) s1
        else JSONArray n (String c1 s1) []
      | EmptyString => Invalid
      end
    else
      match scan_atom s with
      | Some (v, r) => Scanned v r
      | None => Invalid
      end
  end
end
with JSONObject (n : nat) (s : string) (pairs : gmap string pyval) {struct n} : scan :=
match n with
| O => Starved
| S n =>
  match scanstring s with
  | None => Invalid
  | Some (key, s1) =>
    match skip_ws s1 with
    | String c s2 =>
      if Ascii.eqb c ":" then
        match scan_once n (skip_ws s2) with
        | Scanned v s3 =>
          let pairs' := <[key := v]> pairs in
          match skip_ws s3 with
          | String c3 s4 =>
            if Ascii.eqb c3 "}" then Scanned (PyDict pairs') s4
            else if Ascii.eqb c3 "," then
              match skip_ws s4 with
              | String c5 s5 =>
                if Ascii.eqb c5 dq then JSONObject n s5 pairs' else Invalid
              | EmptyString => Invalid
              end
            else Invalid
          | EmptyString => Invalid
          end
        | Invalid => Invalid
        | Starved => Starved
        end
      else Invalid
    | EmptyString => Invalid
    end
  end
end
with JSONArray (n : nat) (s : string) (items : list pyval) {struct n} : scan :=
match n with
| O => Starved
| S n =>
  match scan_once n s with
  | Scanned v s1 =>
    let items' := items ++ [v] in
    match skip_ws s1 with
    | String c s2 =>
      if Ascii.eqb c "]" then Scanned (PyList items') s2
      else if Ascii.eqb c "," then JSONArray n (skip_ws s2) items'
      else Invalid
    | EmptyString => Invalid
    end
  | Invalid => Invalid
  | Starved => Starved
  end
end.

Definition budget (s : string) : nat := 2 * String.length s + 2.

(** UTF-8 bytes of U+FEFF, which [loads] refuses at the start of a [str]. *)
Definition bom : string :=
String (chr 239) (String (chr 187) (String (chr 191) EmptyString)).

(** [JSONDecoder.decode]: one value between optional whitespace, and
    nothing after it. *)
Definition decode (s : string) : scan :=
match scan_once (budget s) (skip_ws s) with
| Scanned v r =>
  match skip_ws r with
  | EmptyString => Scanned v EmptyString
  | String _ _ => Invalid
  end
| r => r
end.

(** [json.loads(s)] for a [str]. Of the exceptions the call can raise
    only [JSONDecodeError] is modelled: [RecursionError] on deep nesting
    and [ValueError] past the digit limit of [int] depend on interpreter
    settings and are left out, so a statement that holds whatever the
    decoder raises takes decode results as hypotheses or compares two runs
    of the same loop. *)
Definition loads (s : string) : outcome pyval :=
match strip_prefix bom s with
| Some _ => Raise JSONDecodeError
| None =>
  match decode s with
  | Scanned v _ => Return v
  | Invalid | Starved => Raise JSONDecodeError
  end
end.

End Json.

(* ===================================================================== *)
(** ** [urllib.parse.quote] *)
(* ===================================================================== *)

Module Urllib.

(** [_ALWAYS_SAFE]: ASCII letters, digits and the four marks [_.-~]. *)
Definition always_safe (c : ascii) : bool :=
let n := Json.code_of c in
((65 <=? n) && (n <=? 90)) || ((97 <=? n) && (n <=? 122)) ||
((48 <=? n) && (n <=? 57)) ||
(n =? 95) || (n =? 46) || (n =? 45) || (n =? 126).

Fixpoint contains (c : ascii) (s : string) : bool :=
match s with
| EmptyString => false
| String a s' => Ascii.eqb a c || contains c s'
end.

Definition hex_digit (n : Z) : ascii :=
if n <? 10 then Json.chr (48 + n) else Json.chr (55 + n).

(** ['%{:02X}'.format(b)] *)
Definition percent (c : ascii) : string :=
let n := Json.code_of c in
String "%" (String (hex_digit (n / 16)) (String (hex_digit (n mod 16)) EmptyString)).

(** [_Quoter.__missing__]: a byte stands for itself when it is always safe
    or is one of the (ASCII) bytes of [safe], and is written %XX otherwise. *)
Definition quoter (safe : string) (c : ascii) : string :=
if always_safe c || ((Json.code_of c <? 128) && contains c safe)
then String c EmptyString
else percent c.

(** [quote(string, safe)]: the quoter applied to every UTF-8 byte. *)
Fixpoint quote (s safe : string) : string :=
match s with
| EmptyString => EmptyString
| String c s' => quoter safe c +:+ quote s' safe
end.

End Urllib.

(* ===================================================================== *)
(** ** [httpx]: what the client sends and what it gets back *)
(* ===================================================================== *)

Module Httpx.

Inductive http_method : Type := GET | POST | PUT | PATCH | DELETE.

Record Request : Type := mkRequest {
  method : http_method;
  url : string;
  params : option (gmap string pyval);
  json : option pyval;
  headers : gmap string string
}.

(** A response: status line and body (UTF-8 text, no byte-order mark). *)
Record Response : Type := mkResponse {
  status_code : Z;
  reason_phrase : string;
  content : string
}.

(** [response.is_success] *)
Definition is_success (r : Response) : bool :=
(200 <=? status_code r) && (status_code r <=? 299).

(** [response.json()], on the body as text. httpx decodes the bytes of
    the body itself; a body that is not UTF-8 text without a byte-order
    mark is outside the model. *)
Definition Response_json (r : Response) : outcome pyval := Json.loads (content r).

End Httpx.
Export Httpx.

(* ===================================================================== *)
(** ** client.py / async_client.py

    [AetherAsyncClient] repeats [AetherClient] line for line with [await]
    in front of the transport calls; [_headers], [_handle_response],
    [login] and [set_token] compute the same values in both, so one
    embedding stands for both classes. *)
(* ===================================================================== *)

Module Client.

Record AetherClient : Type := mkClient {
  _base_url : string;
  _token : pyval
}.

(** [AetherClient(base_url, token=None)] *)
Definition __init__ (base_url : string) (token : option string) : AetherClient :=
{| _base_url := rstrip_slash base_url;
   _token := match token with Some t => PyStr t | None => PyNone end |}.

(** A method that may assign to [self]: its outcome and [self] afterwards. *)
Definition mutator (A : Type) : Type := AetherClient → outcome A * AetherClient.

(** [set_token] *)
Definition set_token (token : string) : mutator unit :=
fun self => (Return tt, {| _base_url := _base_url self; _token := PyStr token |}).

(** The [try: parsed = response.json() except Exception: parsed = None]
    of the failure branch. *)
Definition parsed_or_none (response : Response) : pyval :=
match Response_json response with
| Return v => v
| Raise _ => PyNone
end.

(** [parsed.get("error", {}).get(field) if isinstance(parsed, dict) else None] *)
Definition error_field (parsed : pyval) (field : string) : outcome pyval :=
match parsed with
| PyDict d => get_method (dict_get d "error" (PyDict ∅)) field
| _ => Return PyNone
end.

(** [f"HTTP {response.status_code}: {response.reason_phrase}"] *)
Definition http_message (response : Response) : string :=
"HTTP " +:+ pretty (status_code response) +:+ ": " +:+ reason_phrase response.

(** [f"HTTP_{response.status_code}"] *)
Definition http_code (response : Response) : string :=
"HTTP_" +:+ pretty (status_code response).

(** [_handle_response] *)
Definition _handle_response (response : Response) : outcome pyval :=
if negb (is_success response) then
  let parsed := parsed_or_none response in
  m ← error_field parsed "message";
  let message := py_or m (PyStr (http_message response)) in
  c ← error_field parsed "code";
  let code := py_or c (PyStr (http_code response)) in
  Raise (ExAether (mkAetherError message code (status_code response)))
else
  data ← Response_json response;
  match data with
  | PyDict d =>
    match d !! "data" with
    | Some inner => Return inner
    | None => Return data
    end
  | _ => Return data
  end.

Section Transport.

(** [str(v)] for the objects whose text is not fixed here (floats, lists,
    dicts); an f-string formats a value with it. *)
Variable repr : pyval → string.

(** [self._http]: the connection pool, which answers a request with a
    response or raises a transport fault. *)
Variable http : Request → outcome Response.

(** [f"{v}"] *)
Definition format_value (v : pyval) : string :=
match v with
| PyStr s => s
| PyNone => "None"
| PyBool true => "True"
| PyBool false => "False"
| PyInt z => pretty z
| _ => repr v
end.

(** [_headers] *)
Definition _headers (self : AetherClient) : gmap string string :=
if truthy (_token self)
then <["Authorization" := "Bearer " +:+ format_value (_token self)]> ∅
else ∅.

Definition _get (self : AetherClient) (path : string)
  (params : option (gmap string pyval)) : outcome pyval :=
response ← http (mkRequest GET path params None (_headers self));
_handle_response response.

Definition _post (self : AetherClient) (path : string) (json : pyval) : outcome pyval :=
response ← http (mkRequest POST path None (Some json) (_headers self));
_handle_response response.

Definition _put (self : AetherClient) (path : string) (json : pyval) : outcome pyval :=
response ← http (mkRequest PUT path None (Some json) (_headers self));
_handle_response response.

Definition _patch (self : AetherClient) (path : string) (json : pyval) : outcome pyval :=
response ← http (mkRequest PATCH path None (Some json) (_headers self));
_handle_response response.

Definition _delete (self : AetherClient) (path : string) : outcome pyval :=
response ← http (mkRequest DELETE path None None (_headers self));
_handle_response response.

(** The body [login] posts: [{"username": username, "password": password}]. *)
Definition credentials (username password : string) : pyval :=
PyDict (<["username" := PyStr username]> (<["password" := PyStr password]> ∅)).

(** [login] *)
Definition login (username password : string) : mutator pyval :=
fun self =>
match _post self "/api/auth/login" (credentials username password) with
| Raise e => (Raise e, self)
| Return result =>
  match result with
  | PyDict d =>
    match d !! "token" with
    | Some t => (Return result, {| _base_url := _base_url self; _token := t |})
    | None => (Return result, self)
    end
  | _ => (Return result, self)
  end
end.

End Transport.
End Client.
Export Client.

(* ===================================================================== *)
(** ** namespaces.py: the filesystem namespace *)
(* ===================================================================== *)

Module FSNamespace.
Section FS.
Variable repr : pyval → string.
Variable http : Request → outcome Response.

(** Each method formats [f"/api/v1/fs/{quote(path, safe='')}"]. *)
Definition read (_t : AetherClient) (path : string) : outcome pyval :=
_get repr http _t ("/api/v1/fs/" +:+ Urllib.quote path EmptyString) None.

Definition write (_t : AetherClient) (path content : string) : outcome pyval :=
_put repr http _t ("/api/v1/fs/" +:+ Urllib.quote path EmptyString)
  (PyDict (<["content" := PyStr content]> ∅)).

Definition delete (_t : AetherClient) (path : string) : outcome pyval :=
_delete repr http _t ("/api/v1/fs/" +:+ Urllib.quote path EmptyString).

End FS.
End FSNamespace.

(** [AsyncFSNamespace]: the same three bodies, awaited. *)
Module AsyncFSNamespace.
Section FS.
Variable repr : pyval → string.
Variable http : Request → outcome Response.

Definition read (_t : AetherClient) (path : string) : outcome pyval :=
_get repr http _t ("/api/v1/fs/" +:+ Urllib.quote path EmptyString) None.

Definition write (_t : AetherClient) (path content : string) : outcome pyval :=
_put repr http _t ("/api/v1/fs/" +:+ Urllib.quote path EmptyString)
  (PyDict (<["content" := PyStr content]> ∅)).

Definition delete (_t : AetherClient) (path : string) : outcome pyval :=
_delete repr http _t ("/api/v1/fs/" +:+ Urllib.quote path EmptyString).

End FS.
End AsyncFSNamespace.

(* ===================================================================== *)
(** ** [httpx_sse]: the line decoder behind [event_source.iter_sse()]

    events.py hands line handling to the [httpx_sse] package, whose
    [SSEDecoder] follows the event-stream interpretation of the HTML
    standard: field lines are collected until a blank line dispatches the
    event, and the collected [data] values are joined with a line feed. *)
(* ===================================================================== *)

Module HttpxSse.

Record ServerSentEvent : Type := mkSSE {
  event : string;
  data : string;
  id : string;
  retry : option Z
}.

Record SSEDecoder : Type := mkDecoder {
  _event : string;
  _data : list string;
  _last_event_id : string;
  _retry : option Z
}.

(** [SSEDecoder()] *)
Definition new_decoder : SSEDecoder := mkDecoder EmptyString [] EmptyString None.

Definition is_empty (s : string) : bool :=
match s with EmptyString => true | String _ _ => false end.

(** [line.partition(":")]: the text before the first colon and the text
    after it (empty when there is no colon). *)
Fixpoint partition_colon (line : string) : string * string :=
match line with
| EmptyString => (EmptyString, EmptyString)
| String c rest =>
  if Ascii.eqb c ":" then (EmptyString, rest)
  else let '(f, v) := partition_colon rest in (String c f, v)
end.

(** [value[1:] if value.startswith(" ") else value] *)
Definition strip_one_space (value : string) : string :=
match value with
| String c rest => if Ascii.eqb c " " then rest else value
| EmptyString => value
end.

(** [line.startswith(":")] *)
Definition starts_with_colon (line : string) : bool :=
match line with
| String c _ => Ascii.eqb c ":"
| EmptyString => false
end.

Definition has_nul (s : string) : bool := Urllib.contains "000"%char s.

(** ["\n".join(parts)] *)
Fixpoint join_lf (parts : list string) : string :=
match parts with
| [] => EmptyString
| [p] => p
| p :: rest => p +:+ String "010"%char (join_lf rest)
end.

Section Decoder.

(** [int(value)] of the [retry] field: [None] when it raises. *)
Variable int_of_str : string → option Z.

(** [SSEDecoder.decode(line)]: the decoder afterwards and the event
    dispatched by this line, if any. *)
Definition decode (self : SSEDecoder) (line : string)
  : SSEDecoder * option ServerSentEvent :=
if is_empty line then
  if is_empty (_event self) && bool_decide (_data self = []) &&
     is_empty (_last_event_id self) && bool_decide (_retry self = None)
  then (self, None)
  else
    let sse :=
      mkSSE (if is_empty (_event self) then "message" else _event self)
            (join_lf (_data self)) (_last_event_id self) (_retry self) in
    (mkDecoder EmptyString [] (_last_event_id self) None, Some sse)
else if starts_with_colon line then (self, None)
else
  let '(fieldname, value0) := partition_colon line in
  let value := strip_one_space value0 in
  if String.eqb fieldname "event" then
    (mkDecoder value (_data self) (_last_event_id self) (_retry self), None)
  else if String.eqb fieldname "data" then
    (mkDecoder (_event self) (_data self ++ [value]) (_last_event_id self) (_retry self), None)
  else if String.eqb fieldname "id" then
    if has_nul value then (self, None)
    else (mkDecoder (_event self) (_data self) value (_retry self), None)
  else if String.eqb fieldname "retry" then
    match int_of_str value with
    | Some n => (mkDecoder (_event self) (_data self) (_last_event_id self) (Some n), None)
    | None => (self, None)
    end
  else (self, None).

(** The loop of [iter_sse] over the lines of the body (line ends already
    removed): the decoder at the end and the events it dispatched. *)
Fixpoint feed (self : SSEDecoder) (lines : list string)
  : SSEDecoder * list ServerSentEvent :=
match lines with
| [] => (self, [])
| line :: rest =>
  let '(self1, sse) := decode self line in
  let '(self2, more) := feed self1 rest in
  (self2, match sse with Some e => e :: more | None => more end)
end.

(** [EventSource.iter_sse()] on an event-stream response. The check of
    the Content-Type, which raises for any other type, is left out. *)
Definition iter_sse (lines : list string) : list ServerSentEvent :=
(feed new_decoder lines).2.

End Decoder.
End HttpxSse.

(* ===================================================================== *)
(** ** events.py

    [subscribe_events_async] is [subscribe_events] with [async for]: the
    same request, the same loop. The [timeout] argument only configures
    the connection and is left out. *)
(* ===================================================================== *)

Module Events.
Import HttpxSse.

(** What [connect_sse] opens: the response and the lines of its body, all
    of them delivered. A fault of the transport between two lines is
    outside the model. *)
Record EventSource : Type := mkEventSource {
  response : Response;
  body_lines : list string
}.

(** A finished run of a generator: the values it yielded, in order, and
    the exception that ended it ([None]: it returned). *)
Record generator : Type := mkGenerator {
  yielded : list pyval;
  raised : option exn
}.

Definition yield (v : pyval) (g : generator) : generator :=
mkGenerator (v :: yielded g) (raised g).

(** [",".join(filter)] *)
Fixpoint join_comma (parts : list string) : string :=
match parts with
| [] => EmptyString
| [p] => p
| p :: rest => p +:+ String "," (join_comma rest)
end.

(** The body of [for sse in event_source.iter_sse(): ...]. *)
Fixpoint each_sse (sses : list ServerSentEvent) : generator :=
match sses with
| [] => mkGenerator [] None
| sse :: rest =>
  if truthy (PyStr (data sse)) then
    match Json.loads (data sse) with
    | Return v => yield v (each_sse rest)
    | Raise JSONDecodeError => each_sse rest
    | Raise e => mkGenerator [] (Some e)
    end
  else each_sse rest
end.

Section Subscribe.
Variable repr : pyval → string.
Variable int_of_str : string → option Z.

(** [connect_sse(client, "GET", url, params=..., headers=...)] *)
Variable connect_sse : Request → outcome EventSource.

(** The request [subscribe_events] opens. *)
Definition subscribe_request (base_url : string) (token : pyval)
  (filter : option (list string)) : Request :=
let url := rstrip_slash base_url +:+ "/api/v1/events" in
let params : gmap string pyval :=
  match filter with
  | Some (f :: fs) => <["filter" := PyStr (join_comma (f :: fs))]> ∅
  | _ => ∅
  end in
let headers : gmap string string := <["Accept" := "text/event-stream"]> ∅ in
let headers :=
  if truthy token
  then <["Authorization" := "Bearer " +:+ format_value repr token]> headers
  else headers in
mkRequest GET url (Some params) None headers.

(** [subscribe_events] *)
Definition subscribe_events (base_url : string) (token : pyval)
  (filter : option (list string)) : generator :=
match connect_sse (subscribe_request base_url token filter) with
| Raise e => mkGenerator [] (Some e)
| Return event_source =>
  if is_success (response event_source)
  then each_sse (iter_sse int_of_str (body_lines event_source))
  else mkGenerator [] (Some (HTTPStatusError (status_code (response event_source))))
end.

(** [_EventsAccessor.subscribe] *)
Definition subscribe (self : AetherClient) (filter : option (list string)) : generator :=
subscribe_events (_base_url self) (_token self) filter.

End Subscribe.
End Events.

(* ===================================================================== *)
(** ** tests/test_client.py: the reference loops of [TestSSEEventParsing]

    The tests do not call [subscribe_events]; each carries its own line
    loop. They are embedded to compare them with the reader. *)
(* ===================================================================== *)

Module TestSSEEventParsing.

(** The loop of [test_parse_valid_sse_data] and
    [test_parse_malformed_sse_data_skipped]: the events collected, or the
    exception that left the loop (only [JSONDecodeError] is caught). *)
Fixpoint parse_lines (raw_lines : list string) (events : list pyval)
  (current_data : string) : outcome (list pyval) :=
match raw_lines with
| [] => Return events
| line :: rest =>
  match Json.strip_prefix "data: " line with
  | Some payload => parse_lines rest events (current_data +:+ payload)
  | None =>
    if HttpxSse.is_empty line && negb (HttpxSse.is_empty current_data) then
      match Json.loads current_data with
      | Return v => parse_lines rest (events ++ [v]) EmptyString
      | Raise JSONDecodeError => parse_lines rest events EmptyString
      | Raise e => Raise e
      end
    else parse_lines rest events current_data
  end
end.

(** The loop of [test_parse_multiline_sse_data], which also accepts a
    [data:] prefix without the space. *)
Fixpoint parse_lines_multiline (raw_lines : list string) (events : list pyval)
  (current_data : string) : outcome (list pyval) :=
match raw_lines with
| [] => Return events
| line :: rest =>
  match Json.strip_prefix "data: " line with
  | Some payload => parse_lines_multiline rest events (current_data +:+ payload)
  | None =>
    match Json.strip_prefix "data:" line with
    | Some payload => parse_lines_multiline rest events (current_data +:+ payload)
    | None =>
      if HttpxSse.is_empty line && negb (HttpxSse.is_empty current_data) then
        match Json.loads current_data with
        | Return v => parse_lines_multiline rest (events ++ [v]) EmptyString
        | Raise JSONDecodeError => parse_lines_multiline rest events EmptyString
        | Raise e => Raise e
        end
      else parse_lines_multiline rest events current_data
    end
  end
end.

End TestSSEEventParsing.

(* ===================================================================== *)
(** ** exceptions.py *)
(* ===================================================================== *)

Module Exceptions.
Section Str.
Variable repr : pyval → string.

(** [AetherError.__str__]: [f"[{self.code}] {self.message} (HTTP {self.status})"] *)
Definition __str__ (e : AetherError) : string :=
"[" +:+ format_value repr (code e) +:+ "] " +:+ format_value repr (message e) +:+
" (HTTP " +:+ pretty (status e) +:+ ")".

End Str.
End Exceptions.

(* ===================================================================== *)
(** ** namespaces.py: agents and marketplace templates

    The asynchronous classes repeat these bodies with [await]. *)
(* ===================================================================== *)

Module AgentsNamespace.
Section Agents.
Variable repr : pyval → string.
Variable http : Request → outcome Response.

(** The query parameters of [list]: each argument that is not [None]. *)
Definition list_params (status : option string) (limit offset : option Z)
  : gmap string pyval :=
let params : gmap string pyval := ∅ in
let params := match status with Some s => <["status" := PyStr s]> params | None => params end in
let params := match limit with Some n => <["limit" := PyInt n]> params | None => params end in
let params := match offset with Some n => <["offset" := PyInt n]> params | None => params end in
params.

(** [AgentsNamespace.list] *)
Definition list (_t : AetherClient) (status : option string) (limit offset : option Z)
  : outcome pyval :=
_get repr http _t "/api/v1/agents" (Some (list_params status limit offset)).

End Agents.
End AgentsNamespace.

Module MarketplaceTemplatesNamespace.
Section Templates.
Variable repr : pyval → string.
Variable http : Request → outcome Response.

(** The query parameters of [list]; [tags] is joined whenever it is not
    [None]. *)
Definition list_params (category : option string) (tags : option (list string))
  : gmap string pyval :=
let params : gmap string pyval := ∅ in
let params := match category with Some c => <["category" := PyStr c]> params | None => params end in
let params := match tags with Some ts => <["tags" := PyStr (Events.join_comma ts)]> params | None => params end in
params.

(** [_MarketplaceTemplatesNamespace.list] *)
Definition list (_t : AetherClient) (category : option string)
  (tags : option (list string)) : outcome pyval :=
_get repr http _t "/api/v1/marketplace/templates" (Some (list_params category tags)).

End Templates.
End MarketplaceTemplatesNamespace.

(* ===================================================================== *)
(** ** client.py: the operations of a client, as state passing

    Every namespace method goes through one of the five request helpers,
    none of which assigns to [self] (client.py 192-215); [login] and
    [set_token] are the two methods that do. *)
(* ===================================================================== *)

Module Operations.

Inductive operation : Type :=
| Get (path : string) (params : option (gmap string pyval))
| Post (path : string) (json : pyval)
| Put (path : string) (json : pyval)
| Patch (path : string) (json : pyval)
| Delete (path : string)
| Login (username password : string)
| SetToken (token : string).

Section Run.
Variable repr : pyval → string.
Variable http : Request → outcome Response.

(** The outcome of an operation and the client after it. *)
Definition run (op : operation) : mutator pyval :=
fun self =>
match op with
| Get path params => (_get repr http self path params, self)
| Post path json => (_post repr http self path json, self)
| Put path json => (_put repr http self path json, self)
| Patch path json => (_patch repr http self path json, self)
| Delete path => (_delete repr http self path, self)
| Login username password => login repr http username password self
| SetToken token => (Return PyNone, (set_token token self).2)
end.

End Run.
End Operations.

(* ===================================================================== *)
(** ** Vocabulary of the specification

    Notions the specification words its statements with, written down
    from its text so that the code can be compared with them. *)
(* ===================================================================== *)

Module Spec.

(** "The body's error.<field>": present when the body parses as a JSON
    mapping whose [error] entry is a mapping that has the field. *)
Definition body_error_member (response : Response) (field : string) : option pyval :=
match Response_json response with
| Return (PyDict d) =>
  match d !! "error" with
  | Some (PyDict e) => e !! field
  | _ => None
  end
| _ => None
end.

(** The body does not parse as a JSON mapping, or it has no [error] entry,
    or that entry is itself a mapping. *)
Definition error_entry_usable (response : Response) : Prop :=
match Response_json response with
| Return (PyDict d) =>
  match d !! "error" with
  | Some (PyDict _) | None => True
  | Some _ => False
  end
| _ => True
end.

(** "Application-level field preferred over the HTTP-level fallback": the
    field when present and truthy, else the fallback text. *)
Definition prefer (field : option pyval) (fallback : string) : pyval :=
match field with
| Some v => if truthy v then v else PyStr fallback
| None => PyStr fallback
end.

(** A [data:] line carrying [payload], and a record: its data lines
    followed by the blank line that ends it. *)
Definition data_line (payload : string) : string := "data: " +:+ payload.

Definition record (payloads : list string) : list string :=
(data_line <$> payloads) ++ [EmptyString].

(** The event a dispatched data text gives: none when the text is empty or
    does not decode. *)
Definition event_of_text (text : string) : option pyval :=
if HttpxSse.is_empty text then None
else match Json.loads text with
     | Return v => Some v
     | Raise _ => None
     end.

(** The data text of the event a line dispatched, if it dispatched one. *)
Definition out_texts (o : option HttpxSse.ServerSentEvent) : list string :=
match o with Some e => [HttpxSse.data e] | None => [] end.

(** Percent-encoding as RFC 3986 words it: an unreserved character (a
    letter, a digit, hyphen, period, underscore, tilde) stands for itself;
    every other byte is written as a percent sign and its two upper-case
    hexadecimal digits. No further character is exempted. *)
Definition unreserved : string :=
"ABCDEFGHIJKLMNOPQRSTUVWXYZabcdefghijklmnopqrstuvwxyz0123456789-._~".

Definition upper_hex : string := "0123456789ABCDEF".

Definition hex_of (n : Z) : ascii :=
match String.get (Z.to_nat n) upper_hex with
| Some c => c
| None => "0"%char
end.

Definition encode_byte (c : ascii) : string :=
if Urllib.contains c unreserved then String c EmptyString
else String "%" (String (hex_of (Json.code_of c / 16))
                   (String (hex_of (Json.code_of c mod 16)) EmptyString)).

Fixpoint percent_encode (s : string) : string :=
match s with
| EmptyString => EmptyString
| String c s' => encode_byte c +:+ percent_encode s'
end.

(** An operation sends [request] when, whatever the connection answers,
    its outcome is the normalised answer to that one request. *)
Definition sends (op : (Request → outcome Response) → outcome pyval)
  (request : Request) : Prop :=
∀ http, op http = (http request ≫= _handle_response).

(** Percent-decoding: [%XY] with two hexadecimal digits stands for the
    byte they name; every other character stands for itself. *)
Fixpoint percent_decode (s : string) : string :=
match s with
| EmptyString => EmptyString
| String c rest =>
  if Ascii.eqb c "%" then
    match rest with
    | String a (String b rest') =>
      match Json.hex_val a, Json.hex_val b with
      | Some x, Some y => String (Json.chr (16 * x + y)) (percent_decode rest')
      | _, _ => String c (percent_decode rest)
      end
    | _ => String c (percent_decode rest)
    end
  else String c (percent_decode rest)
end.

(** The request [login] posts is answered by [response]. *)
Definition login_answered (repr : pyval → string) (http : Request → outcome Response)
  (self : AetherClient) (username password : string) (response : Response) : Prop :=
http (mkRequest POST "/api/auth/login" None
        (Some (credentials username password)) (_headers repr self)) = Return response.

(** A string of [n] slashes. *)
Fixpoint slashes (n : nat) : string :=
match n with
| O => EmptyString
| S n' => String "/" (slashes n')
end.

(** [s.endswith("/")] *)
Fixpoint ends_with_slash (s : string) : bool :=
match s with
| EmptyString => false
| String c EmptyString => Ascii.eqb c "/"
| String _ rest => ends_with_slash rest
end.

(** Every byte of [s] passes [f]. *)
Fixpoint string_forall (f : ascii → bool) (s : string) : bool :=
match s with
| EmptyString => true
| String c rest => f c && string_forall f rest
end.

(** The bytes a percent-encoded text is made of: the unreserved
    characters and the percent sign. *)
Definition encoded_byte (c : ascii) : bool :=
Urllib.contains c unreserved || Ascii.eqb c "%".

(** The data texts the reader decodes: the ones that are not empty. *)
Definition nonempty (texts : list string) : list string :=
List.filter (λ t, negb (HttpxSse.is_empty t)) texts.

Definition nonempty_texts (sses : list HttpxSse.ServerSentEvent) : list string :=
nonempty (HttpxSse.data <$> sses).

(** The loop of the reader over the texts it decodes. *)
Fixpoint texts_loop (texts : list string) : Events.generator :=
match texts with
| [] => Events.mkGenerator [] None
| t :: rest =>
  match Json.loads t with
  | Return v => Events.yield v (texts_loop rest)
  | Raise JSONDecodeError => texts_loop rest
  | Raise e => Events.mkGenerator [] (Some e)
  end
end.


(** What a loop that collects events into a list returns, read off a run
    of the reader's loop: the events, after those already collected, or
    the exception that ended the run. *)
Definition collected (events : list pyval) (g : Events.generator) : outcome (list pyval) :=
match Events.raised g with
| Some e => Raise e
| None => Return (events ++ Events.yielded g)
end.

(** The number of blank lines. *)
Definition count_blank (lines : list string) : nat :=
length (List.filter HttpxSse.is_empty lines).

End Spec.

(* ===================================================================== *)
(** ** Sample responses, streams and connections *)
(* ===================================================================== *)

Module Samples.
Import Json.

Definition localhost : string := "http://localhost:3000".

(** [str(v)] and [int(s)] are not reached by the samples. *)
Definition no_repr : pyval → string := fun _ => EmptyString.
Definition no_int : string → option Z := fun _ => None.

(** A connection that answers every request with [response]. *)
Definition answering (response : Response) : Request → outcome Response :=
fun _ => Return response.

(** An event-stream answer with status 200 and the given lines. *)
Definition ok_stream (lines : list string) : Request → outcome Events.EventSource :=
fun _ => Return (Events.mkEventSource (mkResponse 200 "OK" EmptyString) lines).

(** [{"data": [1, 2, 3], "meta": {"total": 3}}] answered with 200. *)
Definition enveloped : Response :=
mkResponse 200 "OK"
  ("{" +:+ quoted "data" +:+ ": [1, 2, 3], " +:+ quoted "meta" +:+ ": {" +:+
   quoted "total" +:+ ": 3}}").

Definition enveloped_body : gmap string pyval :=
<["data" := PyList [PyInt 1; PyInt 2; PyInt 3]]>
  (<["meta" := PyDict (<["total" := PyInt 3]> ∅)]> ∅).

(** [{"meta": {"data": 1}}] answered with 200: [data] only below the top. *)
Definition nested_data : Response :=
mkResponse 200 "OK"
  ("{" +:+ quoted "meta" +:+ ": {" +:+ quoted "data" +:+ ": 1}}").

(** [{"error": {"code": "AGENT_NOT_FOUND", "message": "No such agent"}}]
    answered with 404. *)
Definition not_found : Response :=
mkResponse 404 "Not Found"
  ("{" +:+ quoted "error" +:+ ": {" +:+ quoted "code" +:+ ": " +:+
   quoted "AGENT_NOT_FOUND" +:+ ", " +:+ quoted "message" +:+ ": " +:+
   quoted "No such agent" +:+ "}}").

(** An error object whose [code] and [message] are empty strings, answered
    with 500. *)
Definition blank_error : Response :=
mkResponse 500 "Internal Server Error"
  ("{" +:+ quoted "error" +:+ ": {" +:+ quoted "code" +:+ ": " +:+
   quoted EmptyString +:+ ", " +:+ quoted "message" +:+ ": " +:+
   quoted EmptyString +:+ "}}").

(** [{"error": "boom"}] answered with 500: the error is a string, not an
    object. *)
Definition string_error : Response :=
mkResponse 500 "Internal Server Error"
  ("{" +:+ quoted "error" +:+ ": " +:+ quoted "boom" +:+ "}").

(** [{"token": "jwt-1", "user": {"id": "u1"}}] answered with 200. *)
Definition login_ok : Response :=
mkResponse 200 "OK"
  ("{" +:+ quoted "token" +:+ ": " +:+ quoted "jwt-1" +:+ ", " +:+
   quoted "user" +:+ ": {" +:+ quoted "id" +:+ ": " +:+ quoted "u1" +:+ "}}").

Definition login_ok_body : gmap string pyval :=
<["token" := PyStr "jwt-1"]> (<["user" := PyDict (<["id" := PyStr "u1"]> ∅)]> ∅).

(** [{"data": {"token": "jwt-2"}}] answered with 200: no [token] at the
    top of the body. *)
Definition login_enveloped : Response :=
mkResponse 200 "OK"
  ("{" +:+ quoted "data" +:+ ": {" +:+ quoted "token" +:+ ": " +:+
   quoted "jwt-2" +:+ "}}").

(** [{"error": {"code": "AUTH_FAILED", "message": "Bad credentials"}}]
    answered with 401. *)
Definition login_refused : Response :=
mkResponse 401 "Unauthorized"
  ("{" +:+ quoted "error" +:+ ": {" +:+ quoted "code" +:+ ": " +:+
   quoted "AUTH_FAILED" +:+ ", " +:+ quoted "message" +:+ ": " +:+
   quoted "Bad credentials" +:+ "}}").

(** The text [{"type":"t"}] and the event it decodes to. *)
Definition typed (t : string) : string :=
"{" +:+ quoted "type" +:+ ":" +:+ quoted t +:+ "}".

Definition type_event (t : string) : pyval := PyDict (<["type" := PyStr t]> ∅).

(** Two records, of types a and b. *)
Definition two_records : list string :=
["data: " +:+ typed "a"; EmptyString; "data: " +:+ typed "b"; EmptyString].

(** A malformed record, then a valid one. *)
Definition malformed_then_valid : list string :=
["data: {bad"; EmptyString; "data: " +:+ typed "valid"; EmptyString].







(** An HTML error page answered with 502. *)
Definition bad_gateway : Response :=
mkResponse 502 "Bad Gateway" "<html>Bad Gateway</html>".


(** [{"token": null}] answered with 200. *)
Definition login_null_token : Response :=
mkResponse 200 "OK" ("{" +:+ quoted "token" +:+ ": null}").

Definition login_null_body : gmap string pyval := <["token" := PyNone]> ∅.

Definition login_enveloped_inner : gmap string pyval := <["token" := PyStr "jwt-2"]> ∅.

Definition login_enveloped_body : gmap string pyval :=
<["data" := PyDict login_enveloped_inner]> ∅.

Definition login_beside_body : gmap string pyval :=
<["token" := PyStr "a"]> (<["data" := PyDict (<["user" := PyStr "u"]> ∅)]> ∅).

(** [{"token": "a", "data": {"user": "u"}}] answered with 200. *)
Definition login_token_beside_data : Response :=
mkResponse 200 "OK"
  ("{" +:+ quoted "token" +:+ ": " +:+ quoted "a" +:+ ", " +:+ quoted "data" +:+
   ": {" +:+ quoted "user" +:+ ": " +:+ quoted "u" +:+ "}}").

(** A connection that cannot be opened. *)
Definition unreachable : Request → outcome Response := fun _ => Raise TransportError.

(** An event-stream answer with the given status and lines. *)
Definition stream (st : Z) (lines : list string) : Request → outcome Events.EventSource :=
fun _ => Return (Events.mkEventSource (mkResponse st "" EmptyString) lines).

End Samples.

(* ===================================================================== *)
(** * Facts about the JSON decoder *)
(* ===================================================================== *)

Module JsonFacts.
Import Json.
Local Open Scope nat_scope.

Lemma skip_ws_length s : String.length (skip_ws s) ≤ String.length s.
Proof.
  induction s as [|c s IH]; cbn [skip_ws String.length]; [lia|].
  destruct (is_ws c); cbn [String.length]; lia.
Qed.

Lemma strip_prefix_length p : ∀ s r,
  strip_prefix p s = Some r → String.length s = String.length p + String.length r.
Proof.
  induction p as [|a p IH]; intros s r H; cbn [strip_prefix String.length] in *.
  - by simplify_eq.
  - destruct s as [|b s]; [done|]. destruct (Ascii.eqb a b); [|done].
    apply IH in H. cbn [String.length]. lia.
Qed.

Lemma scanstring_length_aux n : ∀ s k r,
  String.length s ≤ n → scanstring s = Some (k, r) → String.length r < String.length s.
Proof.
  induction n as [|n IH]; intros s k r Hn H.
  - destruct s; [done | cbn [String.length] in Hn; lia].
  - assert (IH' : ∀ s' p, String.length s' ≤ n →
                   prepend p <$> scanstring s' = Some (k, r) →
                   String.length r < String.length s').
    { intros s' p Hs' Hx. destruct (scanstring s') as [[k0 r0]|] eqn:E; [|done].
      cbn in Hx. injection Hx as _ <-. eapply IH; eauto. }
    destruct s as [|c s1]; [done|]. cbn [String.length] in Hn.
    cbn [scanstring] in H.
    destruct (Ascii.eqb c dq). { injection H as _ <-. cbn [String.length]. lia. }
    destruct (Ascii.eqb c backslash).
    2:{ destruct (code_of c <? 32)%Z; [done|].
        apply IH' in H; cbn [String.length]; lia. }
    destruct s1 as [|e s2]; [done|].
    destruct (Ascii.eqb e "u").
    2:{ destruct (escape_char e); [|done].
        apply IH' in H; cbn [String.length] in *; lia. }
    destruct s2 as [|h1 [|h2 [|h3 [|h4 s3]]]]; try done.
    destruct (hex4 h1 h2 h3 h4) as [uni|]; [|done].
    cbn [String.length] in *.
    assert (Hlone : prepend (utf8 uni) <$> scanstring s3 = Some (k, r) →
                    String.length r < S (S (S (S (S (S (String.length s3))))))).
    { intros Hx. apply IH' in Hx; lia. }
    destruct (is_high_surrogate uni); [|by apply Hlone].
    destruct s3 as [|b [|u [|k1 [|k2 [|k3 [|k4 s4]]]]]]; try (by apply Hlone).
    destruct (Ascii.eqb b backslash && Ascii.eqb u "u"); [|by apply Hlone].
    destruct (hex4 k1 k2 k3 k4) as [uni2|]; [|done].
    destruct (is_low_surrogate uni2); [|by apply Hlone].
    cbn [String.length] in *. apply IH' in H; lia.
Qed.

Lemma scanstring_length s k r :
  scanstring s = Some (k, r) → String.length r < String.length s.
Proof. apply (scanstring_length_aux (String.length s)); lia. Qed.

Lemma digits_length s : ∀ acc len a l r,
  digits s acc len = (a, l, r) →
  String.length r ≤ String.length s ∧ ((len < l)%Z → String.length r < String.length s).
Proof.
  induction s as [|c s IH]; intros acc len a l r H; cbn [digits] in H.
  - simplify_eq. cbn [String.length]. lia.
  - destruct (digit_val c).
    + apply IH in H. cbn [String.length]. lia.
    + simplify_eq. cbn [String.length]. lia.
Qed.

Lemma sign_part_length s neg s1 :
  sign_part s = (neg, s1) → String.length s1 ≤ String.length s.
Proof.
  destruct s as [|c s']; cbn [sign_part]; [intros; simplify_eq; done|].
  destruct (Ascii.eqb c "-"); intros; simplify_eq; cbn [String.length]; lia.
Qed.

Lemma int_part_length s ip r :
  int_part s = Some (ip, r) → String.length r < String.length s.
Proof.
  destruct s as [|c s2]; cbn [int_part]; [done|].
  destruct (digit_val c) as [d|]; [|done].
  destruct (d =? 0)%Z; [intros; simplify_eq; cbn [String.length]; lia|].
  destruct (digits s2 d 0) as [[ip' l] s3] eqn:E. apply digits_length in E.
  intros; simplify_eq. cbn [String.length]. lia.
Qed.

Lemma frac_part_length ip s m k r :
  frac_part ip s = Some (m, k, r) → String.length r ≤ String.length s.
Proof.
  destruct s as [|p s']; cbn [frac_part]; [done|].
  destruct (Ascii.eqb p "."); [|done].
  destruct (digits s' ip 0) as [[m' k'] r'] eqn:E. apply digits_length in E.
  destruct (0 <? k')%Z; [|done]. intros; simplify_eq. cbn [String.length]. lia.
Qed.

Lemma exp_part_length s v r :
  exp_part s = Some (v, r) → String.length r ≤ String.length s.
Proof.
  destruct s as [|e s']; cbn [exp_part]; [done|].
  destruct (Ascii.eqb e "e" || Ascii.eqb e "E"); [|done].
  set (sg := match s' with
             | String g t => if Ascii.eqb g "-" then (true, t)
                             else if Ascii.eqb g "+" then (false, t) else (false, s')
             | EmptyString => (false, s') end).
  assert (Hsg : String.length sg.2 ≤ String.length s').
  { subst sg. destruct s' as [|g t]; [done|].
    destruct (Ascii.eqb g "-"); [cbn; lia|].
    destruct (Ascii.eqb g "+"); cbn; lia. }
  destruct sg as [eneg s'']. cbn [snd] in Hsg.
  destruct (digits s'' 0 0) as [[v' k'] r'] eqn:E. apply digits_length in E.
  destruct (0 <? k')%Z; [|done]. intros; simplify_eq. cbn [String.length]. lia.
Qed.

Lemma match_number_length s v r :
  match_number s = Some (v, r) → String.length r < String.length s.
Proof.
  unfold match_number.
  destruct (sign_part s) as [neg s1] eqn:E1. apply sign_part_length in E1.
  destruct (int_part s1) as [[ip s3]|] eqn:E2; [|done]. apply int_part_length in E2.
  destruct (frac_part ip s3) as [[[m k] s4]|] eqn:E3.
  - apply frac_part_length in E3. cbn [from_option id].
    destruct (exp_part s4) as [[ev r']|] eqn:E4.
    + apply exp_part_length in E4. intros; simplify_eq. lia.
    + intros; simplify_eq. lia.
  - cbn [from_option id].
    destruct (exp_part s3) as [[ev r']|] eqn:E4.
    + apply exp_part_length in E4. intros; simplify_eq. lia.
    + intros; simplify_eq. lia.
Qed.

Lemma scan_atom_length s v r :
  scan_atom s = Some (v, r) → String.length r < String.length s.
Proof.
  unfold scan_atom. intros H.
  repeat match type of H with
  | context [match strip_prefix ?p s with _ => _ end] =>
      let E := fresh "E" in destruct (strip_prefix p s) eqn:E;
      [apply strip_prefix_length in E; cbn [String.length] in E; simplify_eq; lia|]
  | context [match match_number s with _ => _ end] =>
      let E := fresh "E" in destruct (match_number s) as [[??]|] eqn:E;
      [apply match_number_length in E; simplify_eq; lia|]
  end.
  done.
Qed.
(** A successful scan consumes at least one character. *)
Lemma scan_consumes n :
  (∀ s v r, scan_once n s = Scanned v r → String.length r < String.length s) ∧
  (∀ s p v r, JSONObject n s p = Scanned v r → String.length r < String.length s) ∧
  (∀ s i v r, JSONArray n s i = Scanned v r → String.length r < String.length s).
Proof.
  induction n as [|n (IH1 & IH2 & IH3)]; [by repeat split|].
  repeat split.
  - intros s v r H. destruct s as [|c s']; cbn [scan_once] in H; [done|].
    destruct (Ascii.eqb c dq).
    { destruct (scanstring s') as [[k r0]|] eqn:E; [|done].
      apply scanstring_length in E. simplify_eq. cbn [String.length]. lia. }
    destruct (Ascii.eqb c "{").
    { pose proof (skip_ws_length s') as Hw.
      destruct (skip_ws s') as [|c1 s1]; [done|]. cbn [String.length] in Hw.
      destruct (Ascii.eqb c1 "}"); [simplify_eq; cbn [String.length]; lia|].
      destruct (Ascii.eqb c1 dq); [|done].
      apply IH2 in H. cbn [String.length]. lia. }
    destruct (Ascii.eqb c "[").
    { pose proof (skip_ws_length s') as Hw.
      destruct (skip_ws s') as [|c1 s1]; [done|]. cbn [String.length] in Hw.
      destruct (Ascii.eqb c1 "]"); [simplify_eq; cbn [String.length]; lia|].
      apply IH3 in H. cbn [String.length] in *. lia. }
    destruct (scan_atom (String c s')) as [[v0 r0]|] eqn:E; [|done].
    apply scan_atom_length in E. simplify_eq. cbn [String.length] in *. lia.
  - intros s p v r H. cbn [JSONObject] in H.
    destruct (scanstring s) as [[k s1]|] eqn:E; [|done].
    apply scanstring_length in E.
    pose proof (skip_ws_length s1) as Hw1.
    destruct (skip_ws s1) as [|c s2]; [done|]. cbn [String.length] in Hw1.
    destruct (Ascii.eqb c ":"); [|done].
    pose proof (skip_ws_length s2) as Hw2.
    destruct (scan_once n (skip_ws s2)) as [v3 s3| |] eqn:E3; [|done|done].
    apply IH1 in E3.
    pose proof (skip_ws_length s3) as Hw3.
    destruct (skip_ws s3) as [|c3 s4]; [done|]. cbn [String.length] in Hw3.
    destruct (Ascii.eqb c3 "}"); [simplify_eq; lia|].
    destruct (Ascii.eqb c3 ","); [|done].
    pose proof (skip_ws_length s4) as Hw4.
    destruct (skip_ws s4) as [|c5 s5]; [done|]. cbn [String.length] in Hw4.
    destruct (Ascii.eqb c5 dq); [|done].
    apply IH2 in H. lia.
  - intros s i v r H. cbn [JSONArray] in H.
    destruct (scan_once n s) as [v1 s1| |] eqn:E1; [|done|done].
    apply IH1 in E1.
    pose proof (skip_ws_length s1) as Hw1.
    destruct (skip_ws s1) as [|c s2]; [done|]. cbn [String.length] in Hw1.
    destruct (Ascii.eqb c "]"); [simplify_eq; lia|].
    destruct (Ascii.eqb c ","); [|done].
    pose proof (skip_ws_length s2) as Hw2.
    apply IH3 in H. lia.
Qed.


(** With a budget above twice the length of the text the scan is never
    starved. *)
Lemma scan_budget n :
  (∀ s, 2 * String.length s < n → scan_once n s ≠ Starved) ∧
  (∀ s p, 2 * String.length s + 1 < n → JSONObject n s p ≠ Starved) ∧
  (∀ s i, 2 * String.length s + 1 < n → JSONArray n s i ≠ Starved).
Proof.
  induction n as [|n (IH1 & IH2 & IH3)]; [repeat split; intros; lia|].
  repeat split.
  - intros s Hn. destruct s as [|c s']; cbn [scan_once]; [done|]. cbn [String.length] in Hn.
    destruct (Ascii.eqb c dq); [by destruct (scanstring s') as [[??]|]|].
    destruct (Ascii.eqb c "{").
    { pose proof (skip_ws_length s') as Hw.
      destruct (skip_ws s') as [|c1 s1]; [done|]. cbn [String.length] in Hw.
      destruct (Ascii.eqb c1 "}"); [done|].
      destruct (Ascii.eqb c1 dq); [|done]. apply IH2. lia. }
    destruct (Ascii.eqb c "[").
    { pose proof (skip_ws_length s') as Hw.
      destruct (skip_ws s') as [|c1 s1]; [done|]. cbn [String.length] in Hw.
      destruct (Ascii.eqb c1 "]"); [done|]. apply IH3. cbn [String.length]. lia. }
    by destruct (scan_atom (String c s')) as [[??]|].
  - intros s p Hn. cbn [JSONObject].
    destruct (scanstring s) as [[k s1]|] eqn:E; [|done].
    apply scanstring_length in E.
    pose proof (skip_ws_length s1) as Hw1.
    destruct (skip_ws s1) as [|c s2]; [done|]. cbn [String.length] in Hw1.
    destruct (Ascii.eqb c ":"); [|done].
    pose proof (skip_ws_length s2) as Hw2.
    destruct (scan_once n (skip_ws s2)) as [v3 s3| |] eqn:E3; [|done|].
    2:{ exfalso. revert E3. apply IH1. lia. }
    apply (proj1 (scan_consumes n)) in E3.
    pose proof (skip_ws_length s3) as Hw3.
    destruct (skip_ws s3) as [|c3 s4]; [done|]. cbn [String.length] in Hw3.
    destruct (Ascii.eqb c3 "}"); [done|].
    destruct (Ascii.eqb c3 ","); [|done].
    pose proof (skip_ws_length s4) as Hw4.
    destruct (skip_ws s4) as [|c5 s5]; [done|]. cbn [String.length] in Hw4.
    destruct (Ascii.eqb c5 dq); [|done]. apply IH2. lia.
  - intros s i Hn. cbn [JSONArray].
    destruct (scan_once n s) as [v1 s1| |] eqn:E1; [|done|].
    2:{ exfalso. revert E1. apply IH1. lia. }
    apply (proj1 (scan_consumes n)) in E1.
    pose proof (skip_ws_length s1) as Hw1.
    destruct (skip_ws s1) as [|c s2]; [done|]. cbn [String.length] in Hw1.
    destruct (Ascii.eqb c "]"); [done|].
    destruct (Ascii.eqb c ","); [|done].
    pose proof (skip_ws_length s2) as Hw2. apply IH3. lia.
Qed.

(** [loads] never fails for lack of budget. *)
Lemma loads_budget s : decode s ≠ Starved.
Proof.
  unfold decode.
  destruct (scan_once (budget s) (skip_ws s)) as [v r| |] eqn:E.
  - by destruct (skip_ws r).
  - done.
  - exfalso. revert E. apply scan_budget.
    pose proof (skip_ws_length s). unfold budget. lia.
Qed.

Lemma loads_raises s e : loads s = Raise e → e = JSONDecodeError.
Proof.
  unfold loads. destruct (strip_prefix bom s); [congruence|].
  destruct (decode s); congruence.
Qed.

Lemma loads_empty : loads EmptyString = Raise JSONDecodeError.
Proof. reflexivity. Qed.

End JsonFacts.

(* ===================================================================== *)
(** * Response normalisation *)
(* ===================================================================== *)

(** C1. A 2xx response whose body parses returns the value under the
    top-level key [data] when the body is a mapping that has it, and the
    whole parsed body otherwise (a mapping without top-level [data], or a
    body that is no mapping). *)
Theorem C1_handle_response_success (response : Response) (body : pyval) :
  is_success response = true →
  Response_json response = Return body →
  (∀ d v, body = PyDict d → d !! "data" = Some v →
     _handle_response response = Return v) ∧
  (∀ d, body = PyDict d → d !! "data" = None →
     _handle_response response = Return body) ∧
  (is_dict body = false → _handle_response response = Return body).
Proof.
  intros Hok Hbody. unfold _handle_response. rewrite Hok, Hbody. cbn.
  repeat split.
  - intros d v -> Hd. by rewrite Hd.
  - intros d -> Hd. by rewrite Hd.
  - by destruct body.
Qed.

Lemma C1_handle_response_success_witness :
  is_success Samples.enveloped = true ∧
  Response_json Samples.enveloped = Return (PyDict Samples.enveloped_body) ∧
  _handle_response Samples.enveloped = Return (PyList [PyInt 1; PyInt 2; PyInt 3]).
Proof.
  assert (H1 : is_success Samples.enveloped = true) by reflexivity.
  assert (H2 : Response_json Samples.enveloped = Return (PyDict Samples.enveloped_body))
    by (vm_compute; reflexivity).
  split; [exact H1|]. split; [exact H2|].
  apply (proj1 (C1_handle_response_success _ _ H1 H2) Samples.enveloped_body);
    [reflexivity | vm_compute; reflexivity].
Defined.

(** [data] is looked up at the top level only. *)
Lemma handle_response_nested_data :
  _handle_response Samples.nested_data =
  Return (PyDict (<["meta" := PyDict (<["data" := PyInt 1]> ∅)]> ∅)).
Proof. vm_compute. reflexivity. Qed.

(** A 2xx body that is not JSON is not handled: the decode error leaves
    [_handle_response]. *)
Lemma handle_response_success_undecodable (response : Response) :
  is_success response = true →
  Response_json response = Raise JSONDecodeError →
  _handle_response response = Raise JSONDecodeError.
Proof. intros Hok Hbody. unfold _handle_response. by rewrite Hok, Hbody. Qed.

Lemma error_field_usable (response : Response) (field : string) (fallback : string) :
  Spec.error_entry_usable response →
  ∃ v, error_field (parsed_or_none response) field = Return v ∧
       py_or v (PyStr fallback) = Spec.prefer (Spec.body_error_member response field) fallback.
Proof.
  unfold Spec.error_entry_usable, Spec.body_error_member, parsed_or_none, error_field.
  destruct (Response_json response) as [[| | | | | |d]|e]; cbn; try (by eexists).
  unfold dict_get. destruct (d !! "error") as [[| | | | | |e]|]; cbn; try done.
  - intros _. eexists; split; [done|]. unfold dict_get.
    destruct (e !! field) as [v|]; cbn; [done|]. done.
  - intros _. eexists; split; [done|]. unfold dict_get.
    by rewrite lookup_empty.
Qed.

(** C2 (amended). A non-2xx response whose body is no JSON mapping, or has
    no [error] entry, or has a mapping there, raises an AetherError whose
    status is the response status, whose message is the body's error.message
    when that is present and truthy and "HTTP <status>: <reason>" otherwise,
    and whose code is the body's error.code when present and truthy and
    "HTTP_<status>" otherwise. *)
Theorem C2_handle_response_failure (response : Response) :
  is_success response = false →
  Spec.error_entry_usable response →
  _handle_response response =
  Raise (ExAether
    (mkAetherError
       (Spec.prefer (Spec.body_error_member response "message") (http_message response))
       (Spec.prefer (Spec.body_error_member response "code") (http_code response))
       (status_code response))).
Proof.
  intros Hfail Hok. unfold _handle_response. rewrite Hfail. cbn [negb].
  destruct (error_field_usable response "message" (http_message response) Hok)
    as (m & Hm & Hm').
  destruct (error_field_usable response "code" (http_code response) Hok)
    as (c & Hc & Hc').
  rewrite Hm. cbn [mbind outcome_bind]. rewrite Hc. cbn [mbind outcome_bind].
  by rewrite Hm', Hc'.
Qed.

Lemma C2_handle_response_failure_witness :
  is_success Samples.not_found = false ∧
  Spec.error_entry_usable Samples.not_found ∧
  _handle_response Samples.not_found =
  Raise (ExAether (mkAetherError (PyStr "No such agent") (PyStr "AGENT_NOT_FOUND") 404)).
Proof.
  assert (H1 : is_success Samples.not_found = false) by reflexivity.
  assert (H2 : Spec.error_entry_usable Samples.not_found) by (vm_compute; exact I).
  split; [exact H1|]. split; [exact H2|].
  rewrite (C2_handle_response_failure _ H1 H2). vm_compute. reflexivity.
Defined.

(** C2 as stated fails: the body has error.message and error.code (both the
    empty string), and the raised error carries the HTTP-level texts. *)
Lemma C2_counterexample :
  is_success Samples.blank_error = false ∧
  Spec.body_error_member Samples.blank_error "message" = Some (PyStr EmptyString) ∧
  Spec.body_error_member Samples.blank_error "code" = Some (PyStr EmptyString) ∧
  _handle_response Samples.blank_error =
    Raise (ExAether (mkAetherError (PyStr "HTTP 500: Internal Server Error")
                                   (PyStr "HTTP_500") 500)) ∧
  _handle_response Samples.blank_error ≠
    Raise (ExAether (mkAetherError (PyStr EmptyString) (PyStr EmptyString) 500)).
Proof.
  assert (H : _handle_response Samples.blank_error =
    Raise (ExAether (mkAetherError (PyStr "HTTP 500: Internal Server Error")
                                   (PyStr "HTTP_500") 500)))
    by (vm_compute; reflexivity).
  repeat split; try (vm_compute; reflexivity).
  rewrite H. discriminate.
Qed.

(** C3 fails on the code: a non-2xx body whose [error] entry is a string
    makes [.get] fail, and AttributeError leaves [_handle_response] instead
    of an AetherError. *)
Theorem C3_attribute_error_escapes :
  is_success Samples.string_error = false ∧
  Response_json Samples.string_error = Return (PyDict (<["error" := PyStr "boom"]> ∅)) ∧
  _handle_response Samples.string_error = Raise AttributeError.
Proof. repeat split; vm_compute; reflexivity. Qed.

(* ===================================================================== *)
(** * The event stream reader *)
(* ===================================================================== *)

Module SseFacts.
Import HttpxSse Events Spec.

Lemma truthy_str s : truthy (PyStr s) = negb (is_empty s).
Proof. by destruct s. Qed.

(** The loop never raises, and its yields are the decodable non-empty
    data texts, in order. *)
Lemma each_sse_texts sses :
  each_sse sses = mkGenerator (omap event_of_text (data <$> sses)) None.
Proof.
  induction sses as [|sse rest IH]; [done|].
  cbn [each_sse fmap list_fmap omap list_omap]. rewrite truthy_str.
  unfold event_of_text at 1. destruct (is_empty (data sse)); cbn [negb]; [done|].
  destruct (Json.loads (data sse)) as [v|e] eqn:E.
  - rewrite IH. done.
  - apply JsonFacts.loads_raises in E as ->. done.
Qed.

Section Decoder.
Variable int_of_str : string → option Z.

Lemma decode_data_line self payload :
  decode int_of_str self (data_line payload) =
  (mkDecoder (_event self) (_data self ++ [payload]) (_last_event_id self) (_retry self), None).
Proof. reflexivity. Qed.

Lemma feed_app self l1 l2 :
  feed int_of_str self (l1 ++ l2) =
  let '(self1, out1) := feed int_of_str self l1 in
  let '(self2, out2) := feed int_of_str self1 l2 in
  (self2, out1 ++ out2).
Proof.
  revert self. induction l1 as [|line l1 IH]; intros self.
  - cbn [app feed]. by destruct (feed int_of_str self l2).
  - cbn [app feed]. destruct (decode int_of_str self line) as [self1 sse].
    rewrite IH. destruct (feed int_of_str self1 l1) as [selfa outa].
    destruct (feed int_of_str selfa l2) as [selfb outb]. by destruct sse.
Qed.

Lemma feed_data_lines self payloads :
  feed int_of_str self (data_line <$> payloads) =
  (mkDecoder (_event self) (_data self ++ payloads) (_last_event_id self) (_retry self), []).
Proof.
  revert self. induction payloads as [|p ps IH]; intros self.
  - cbn. rewrite app_nil_r. by destruct self.
  - cbn [fmap list_fmap feed]. rewrite decode_data_line, IH. cbn.
    by rewrite <- app_assoc.
Qed.

(** One line: the data buffer afterwards and the event a dispatch gives
    depend on the data buffer only, not on the other fields. *)
Lemma decode_data_only d1 d2 line :
  _data d1 = _data d2 →
  _data (decode int_of_str d1 line).1 = _data (decode int_of_str d2 line).1 ∧
  omap event_of_text (out_texts (decode int_of_str d1 line).2) =
  omap event_of_text (out_texts (decode int_of_str d2 line).2).
Proof.
  destruct d1 as [ev1 dat id1 rt1], d2 as [ev2 dat2 id2 rt2]. cbn [_data].
  intros <-. unfold decode. cbn [_event _data _last_event_id _retry].
  destruct (is_empty line).
  - destruct (decide (dat = [])) as [->|Hne].
    + destruct (is_empty ev1), (is_empty id1), (bool_decide (rt1 = None)),
        (is_empty ev2), (is_empty id2), (bool_decide (rt2 = None)); done.
    + rewrite (bool_decide_eq_false_2 _ Hne), !andb_false_r. cbn. done.
  - destruct (starts_with_colon line); [done|].
    destruct (partition_colon line) as [fieldname value0].
    destruct (String.eqb fieldname "event"); [done|].
    destruct (String.eqb fieldname "data"); [done|].
    destruct (String.eqb fieldname "id").
    { by destruct (has_nul (strip_one_space value0)). }
    destruct (String.eqb fieldname "retry"); [|done].
    by destruct (int_of_str (strip_one_space value0)).
Qed.

Lemma feed_cons self line rest :
  feed int_of_str self (line :: rest) =
  ((feed int_of_str (decode int_of_str self line).1 rest).1,
   match (decode int_of_str self line).2 with
   | Some e => e :: (feed int_of_str (decode int_of_str self line).1 rest).2
   | None => (feed int_of_str (decode int_of_str self line).1 rest).2
   end).
Proof.
  cbn [feed]. destruct (decode int_of_str self line) as [self1 sse].
  cbn [fst snd]. by destruct (feed int_of_str self1 rest), sse.
Qed.

(** The events a run yields depend on the data buffer it starts with only. *)
Lemma feed_data_only lines : ∀ d1 d2,
  _data d1 = _data d2 →
  omap event_of_text (data <$> (feed int_of_str d1 lines).2) =
  omap event_of_text (data <$> (feed int_of_str d2 lines).2).
Proof.
  induction lines as [|line rest IH]; intros d1 d2 Hd; [done|].
  rewrite !feed_cons. cbn [snd].
  destruct (decode_data_only d1 d2 line Hd) as [Hd' Hout].
  specialize (IH _ _ Hd').
  destruct (decode int_of_str d1 line) as [d1' [e1|]],
           (decode int_of_str d2 line) as [d2' [e2|]];
    cbn [fst snd out_texts omap list_omap fmap list_fmap] in *.
  - destruct (event_of_text (data e1)), (event_of_text (data e2));
      cbn in Hout; simplify_eq; by rewrite ?IH.
  - destruct (event_of_text (data e1)); cbn in Hout; simplify_eq; by rewrite ?IH.
  - destruct (event_of_text (data e2)); cbn in Hout; simplify_eq; by rewrite ?IH.
  - done.
Qed.

(** A record read with an empty data buffer: the buffer is empty again
    afterwards, and the record dispatches the line-feed join of its
    payloads (or nothing, when it has no data line and nothing else is
    pending). *)
Lemma feed_record self payloads :
  _data self = [] →
  _data (feed int_of_str self (record payloads)).1 = [] ∧
  omap event_of_text (data <$> (feed int_of_str self (record payloads)).2) =
  omap event_of_text [join_lf payloads].
Proof.
  intros Hd. unfold record. rewrite feed_app, feed_data_lines, Hd. cbn [app].
  rewrite feed_cons. cbn [feed fst snd].
  set (d := mkDecoder (_event self) payloads (_last_event_id self) (_retry self)).
  unfold decode. cbn [is_empty]. subst d. cbn [_event _data _last_event_id _retry].
  destruct (decide (payloads = [])) as [->|Hne].
  - destruct (is_empty (_event self) && bool_decide ([] = []) &&
              is_empty (_last_event_id self) && bool_decide (_retry self = None)); done.
  - rewrite (bool_decide_eq_false_2 _ Hne), !andb_false_r. cbn. done.
Qed.


(** After a prefix that leaves the data buffer empty, the rest of the
    stream yields what it would yield on its own. *)
Lemma iter_sse_app l1 l2 :
  _data (feed int_of_str new_decoder l1).1 = [] →
  omap event_of_text (data <$> iter_sse int_of_str (l1 ++ l2)) =
  omap event_of_text (data <$> iter_sse int_of_str l1) ++
  omap event_of_text (data <$> iter_sse int_of_str l2).
Proof.
  intros Hd. unfold iter_sse. rewrite feed_app.
  destruct (feed int_of_str new_decoder l1) as [d1 out1] eqn:E1. cbn [fst] in Hd.
  pose proof (feed_data_only l2 d1 new_decoder Hd) as Hsim.
  destruct (feed int_of_str d1 l2) as [d2 out2]. cbn [snd] in *.
  by rewrite fmap_app, omap_app, Hsim.
Qed.

Lemma feed_app_fst self l1 l2 :
  (feed int_of_str self (l1 ++ l2)).1 =
  (feed int_of_str (feed int_of_str self l1).1 l2).1.
Proof.
  rewrite feed_app. destruct (feed int_of_str self l1) as [d1 o1]. cbn [fst].
  by destruct (feed int_of_str d1 l2).
Qed.

Lemma iter_sse_record payloads :
  payloads ≠ [] →
  iter_sse int_of_str (record payloads) =
  [mkSSE "message" (join_lf payloads) EmptyString None].
Proof.
  intros Hne. unfold iter_sse, record. rewrite feed_app, feed_data_lines.
  cbn [feed app new_decoder _event _data _last_event_id _retry].
  unfold decode. cbn [is_empty _event _data _last_event_id _retry].
  by rewrite (bool_decide_eq_false_2 _ Hne).
Qed.

Section Subscribe.
Variable repr : pyval → string.
Variable connect_sse : Request → outcome EventSource.

(** On a 2xx answer the generator is the loop over the decoded lines. *)
Lemma subscribe_events_open base_url token filter event_source :
  connect_sse (subscribe_request repr base_url token filter) = Return event_source →
  is_success (response event_source) = true →
  subscribe_events repr int_of_str connect_sse base_url token filter =
  mkGenerator (omap event_of_text (data <$> iter_sse int_of_str (body_lines event_source))) None.
Proof.
  intros Hc Hok. unfold subscribe_events. rewrite Hc, Hok. apply each_sse_texts.
Qed.
End Subscribe.

End Decoder.
End SseFacts.

(** The reader's loop read through the texts it decodes; nothing here
    depends on which exceptions the decoder raises. *)
Module LoopFacts.
Import HttpxSse Events Spec SseFacts.

Lemma nonempty_app t1 t2 : nonempty (t1 ++ t2) = nonempty t1 ++ nonempty t2.
Proof. apply List.filter_app. Qed.

Lemma nonempty_texts_app s1 s2 :
  nonempty_texts (s1 ++ s2) = nonempty_texts s1 ++ nonempty_texts s2.
Proof. unfold nonempty_texts. by rewrite fmap_app, nonempty_app. Qed.

(** The loop skips events without data and reads nothing but the data of
    the others. *)
Lemma each_sse_loop sses : each_sse sses = texts_loop (nonempty_texts sses).
Proof.
  induction sses as [|sse rest IH]; [done|].
  cbn [each_sse]. rewrite truthy_str.
  unfold nonempty_texts, nonempty. cbn [fmap list_fmap List.filter].
  destruct (is_empty (data sse)); cbn [negb]; [exact IH|].
  cbn [texts_loop]. fold (nonempty (data <$> rest)). fold (nonempty_texts rest).
  by rewrite IH.
Qed.




Section Decoder.
Variable int_of_str : string → option Z.

Lemma decode_texts_only d1 d2 line :
  _data d1 = _data d2 →
  _data (decode int_of_str d1 line).1 = _data (decode int_of_str d2 line).1 ∧
  nonempty (out_texts (decode int_of_str d1 line).2) =
  nonempty (out_texts (decode int_of_str d2 line).2).
Proof.
  destruct d1 as [ev1 dat id1 rt1], d2 as [ev2 dat2 id2 rt2]. cbn [_data].
  intros <-. unfold decode. cbn [_event _data _last_event_id _retry].
  destruct (is_empty line).
  - destruct (decide (dat = [])) as [->|Hne].
    + destruct (is_empty ev1), (is_empty id1), (bool_decide (rt1 = None)),
        (is_empty ev2), (is_empty id2), (bool_decide (rt2 = None)); done.
    + rewrite (bool_decide_eq_false_2 _ Hne), !andb_false_r. cbn. done.
  - destruct (starts_with_colon line); [done|].
    destruct (partition_colon line) as [fieldname value0].
    destruct (String.eqb fieldname "event"); [done|].
    destruct (String.eqb fieldname "data"); [done|].
    destruct (String.eqb fieldname "id").
    { by destruct (has_nul (strip_one_space value0)). }
    destruct (String.eqb fieldname "retry"); [|done].
    by destruct (int_of_str (strip_one_space value0)).
Qed.

(** The texts a run hands to the decoder depend on the data buffer it
    starts with only. *)
Lemma feed_texts_only lines : ∀ d1 d2,
  _data d1 = _data d2 →
  nonempty_texts (feed int_of_str d1 lines).2 =
  nonempty_texts (feed int_of_str d2 lines).2.
Proof.
  induction lines as [|line rest IH]; intros d1 d2 Hd; [done|].
  rewrite !feed_cons. cbn [snd].
  destruct (decode_texts_only d1 d2 line Hd) as [Hd' Hout].
  specialize (IH _ _ Hd').
  destruct (decode int_of_str d1 line) as [d1' [e1|]],
           (decode int_of_str d2 line) as [d2' [e2|]];
    cbn [fst snd out_texts] in *.
  - change (e1 :: ?l) with ([e1] ++ l). change (e2 :: ?l) with ([e2] ++ l).
    rewrite !nonempty_texts_app, IH. f_equal. exact Hout.
  - change (e1 :: ?l) with ([e1] ++ l). rewrite nonempty_texts_app, IH.
    change (nonempty_texts [e1]) with (nonempty [data e1]). by rewrite Hout.
  - change (e2 :: ?l) with ([e2] ++ l). rewrite nonempty_texts_app, IH.
    change (nonempty_texts [e2]) with (nonempty [data e2]). by rewrite <- Hout.
  - done.
Qed.

(** After a prefix that leaves the data buffer empty, the rest of the
    stream hands over the texts it would hand over on its own. *)
Lemma iter_texts_app l1 l2 :
  _data (feed int_of_str new_decoder l1).1 = [] →
  nonempty_texts (iter_sse int_of_str (l1 ++ l2)) =
  nonempty_texts (iter_sse int_of_str l1) ++ nonempty_texts (iter_sse int_of_str l2).
Proof.
  intros Hd. unfold iter_sse. rewrite feed_app.
  destruct (feed int_of_str new_decoder l1) as [d1 out1] eqn:E1. cbn [fst] in Hd.
  pose proof (feed_texts_only l2 d1 new_decoder Hd) as Hsim.
  destruct (feed int_of_str d1 l2) as [d2 out2]. cbn [snd] in *.
  by rewrite nonempty_texts_app, Hsim.
Qed.

(** A record read with an empty data buffer hands over the line-feed join
    of its payloads, when that is not empty. *)
Lemma record_texts payloads :
  nonempty_texts (iter_sse int_of_str (record payloads)) = nonempty [join_lf payloads].
Proof.
  unfold iter_sse, record. rewrite feed_app, feed_data_lines.
  cbn [feed app new_decoder _event _data _last_event_id _retry].
  unfold decode. cbn [is_empty _event _data _last_event_id _retry].
  destruct (decide (payloads = [])) as [->|Hne]; [done|].
  by rewrite (bool_decide_eq_false_2 _ Hne).
Qed.


End Decoder.
End LoopFacts.

Module ReaderFacts.
Import HttpxSse Events Spec SseFacts.

Lemma loads_nonempty p v : Json.loads p = Return v → is_empty p = false.
Proof. by destruct p. Qed.

Lemma event_of_text_return p v : Json.loads p = Return v → event_of_text p = Some v.
Proof. intros H. unfold event_of_text. by rewrite (loads_nonempty _ _ H), H. Qed.

Section Reader.
Variable repr : pyval → string.
Variable int_of_str : string → option Z.
Variable connect_sse : Request → outcome EventSource.

Lemma records_boundary payloads : ∀ self,
  _data self = [] →
  _data (feed int_of_str self (concat ((λ p, record [p]) <$> payloads))).1 = [].
Proof.
  induction payloads as [|p ps IH]; intros self Hd; [done|].
  cbn [fmap list_fmap concat]. rewrite feed_app_fst. apply IH.
  by destruct (feed_record int_of_str self [p] Hd).
Qed.

Lemma one_per_record payloads values :
  Forall2 (λ p v, Json.loads p = Return v) payloads values →
  omap event_of_text
    (data <$> iter_sse int_of_str (concat ((λ p, record [p]) <$> payloads))) = values.
Proof.
  induction 1 as [|p v ps vs Hp _ IH]; [done|].
  cbn [fmap list_fmap concat].
  destruct (feed_record int_of_str new_decoder [p] eq_refl) as [Hd Hv].
  rewrite iter_sse_app by done. unfold iter_sse at 1. rewrite Hv, IH.
  cbn [omap list_omap join_lf]. by rewrite (event_of_text_return _ _ Hp).
Qed.


(** C5. A 2xx stream of records of one data line each, every payload valid
    JSON: the reader yields the decoded payloads, one per record, in the
    order of the records, and raises nothing. *)
Theorem C5_one_event_per_record base_url token filter resp payloads values :
  connect_sse (subscribe_request repr base_url token filter) =
    Return (mkEventSource resp (concat ((λ p, record [p]) <$> payloads))) →
  is_success resp = true →
  Forall2 (λ p v, Json.loads p = Return v) payloads values →
  subscribe_events repr int_of_str connect_sse base_url token filter =
    mkGenerator values None.
Proof.
  intros Hc Hok Hp.
  rewrite (subscribe_events_open _ _ _ _ _ _ _ Hc Hok). cbn [body_lines].
  by rewrite (one_per_record _ _ Hp).
Qed.


End Reader.
End ReaderFacts.


Lemma C5_one_event_per_record_witness :
  Forall2 (λ p v, Json.loads p = Return v) [Samples.typed "a"; Samples.typed "b"]
    [Samples.type_event "a"; Samples.type_event "b"] ∧
  Events.subscribe_events Samples.no_repr Samples.no_int (Samples.ok_stream Samples.two_records) Samples.localhost PyNone None =
  Events.mkGenerator [Samples.type_event "a"; Samples.type_event "b"] None.
Proof.
  assert (H : Forall2 (λ p v, Json.loads p = Return v) [Samples.typed "a"; Samples.typed "b"]
    [Samples.type_event "a"; Samples.type_event "b"]).
  { repeat constructor; vm_compute; reflexivity. }
  split; [exact H|].
  exact (ReaderFacts.C5_one_event_per_record Samples.no_repr Samples.no_int
    (Samples.ok_stream Samples.two_records) Samples.localhost PyNone None
    (mkResponse 200 "OK" EmptyString) [Samples.typed "a"; Samples.typed "b"]
    [Samples.type_event "a"; Samples.type_event "b"] eq_refl eq_refl H).
Defined.



(* ===================================================================== *)
(** * Login, headers and paths *)
(* ===================================================================== *)

Module ClientFacts.
Import Spec.

Lemma always_safe_unreserved c :
  Urllib.always_safe c = Urllib.contains c unreserved.
Proof. destruct c as [[] [] [] [] [] [] [] []]; vm_compute; reflexivity. Qed.

Lemma quoter_encode_byte c : Urllib.quoter EmptyString c = encode_byte c.
Proof. destruct c as [[] [] [] [] [] [] [] []]; vm_compute; reflexivity. Qed.

Lemma quote_percent_encode s : Urllib.quote s EmptyString = percent_encode s.
Proof.
  induction s as [|c s IH]; [done|].
  cbn [Urllib.quote percent_encode]. by rewrite quoter_encode_byte, IH.
Qed.

Lemma contains_app c s1 s2 :
  Urllib.contains c (s1 +:+ s2) = Urllib.contains c s1 || Urllib.contains c s2.
Proof.
  induction s1 as [|a s1 IH]; [done|].
  simpl. by rewrite IH, orb_assoc.
Qed.

Lemma quoter_no_slash c : Urllib.contains "/" (Urllib.quoter EmptyString c) = false.
Proof. destruct c as [[] [] [] [] [] [] [] []]; vm_compute; reflexivity. Qed.

Lemma quote_no_slash s : Urllib.contains "/" (Urllib.quote s EmptyString) = false.
Proof.
  induction s as [|c s IH]; [done|].
  cbn [Urllib.quote]. by rewrite contains_app, quoter_no_slash, IH.
Qed.

Lemma handle_response_failure_raises response :
  is_success response = false → ∃ e, _handle_response response = Raise e.
Proof.
  intros Hf. unfold _handle_response. rewrite Hf. cbn [negb].
  destruct (error_field (parsed_or_none response) "message") as [m|e]; [|by eexists].
  cbn [mbind outcome_bind].
  destruct (error_field (parsed_or_none response) "code") as [c|e]; by eexists.
Qed.

Section Transport.
Variable repr : pyval → string.
Variable http : Request → outcome Response.

(** C7. A login answered with 2xx and a body that parses to a mapping with
    a [token] entry and no [data] entry returns that mapping whole and
    leaves [token]'s value as the stored token. *)
Theorem C7_login_stores_token self username password response d t :
  http (mkRequest POST "/api/auth/login" None
          (Some (credentials username password)) (_headers repr self)) = Return response →
  is_success response = true →
  Response_json response = Return (PyDict d) →
  d !! "token" = Some t →
  d !! "data" = None →
  login repr http username password self =
    (Return (PyDict d), mkClient (_base_url self) t).
Proof.
  intros Hh Hok Hbody Ht Hd. unfold login, _post. rewrite Hh.
  cbn [mbind outcome_bind]. unfold _handle_response. rewrite Hok, Hbody.
  cbn [negb mbind outcome_bind]. by rewrite Hd, Ht.
Qed.

(** A login that raises leaves the client as it was; a login answered
    with a non-2xx status raises; and a login that returns a result that
    is no mapping with a [token] entry leaves the client as it was. *)
Lemma login_keeps_token self username password :
  (∀ e, (login repr http username password self).1 = Raise e →
        (login repr http username password self).2 = self) ∧
  (∀ response,
     http (mkRequest POST "/api/auth/login" None
             (Some (credentials username password)) (_headers repr self)) = Return response →
     is_success response = false →
     ∃ e, login repr http username password self = (Raise e, self)) ∧
  (∀ result, (login repr http username password self).1 = Return result →
     (∀ d, result = PyDict d → d !! "token" = None) →
     (login repr http username password self).2 = self).
Proof.
  unfold login.
  destruct (_post repr http self "/api/auth/login" (credentials username password))
    as [result|e] eqn:E.
  - repeat split.
    + destruct result as [| | | | | |d]; try done. by destruct (d !! "token").
    + intros response Hh Hf. unfold _post in E. rewrite Hh in E.
      cbn [mbind outcome_bind] in E.
      destruct (handle_response_failure_raises _ Hf) as [e He]. congruence.
    + intros result' Hr Hno. destruct result as [| | | | | |d]; try done.
      destruct (d !! "token") as [t|] eqn:Et; [|done].
      cbn [fst] in Hr. simplify_eq. by rewrite (Hno d eq_refl) in Et.
  - repeat split; try done.
    intros response _ _. by eexists.
Qed.

(** C10 (amended). Every operation of a client (the five request helpers,
    [login], [set_token]) that raises leaves the client, and so its stored
    token, as it was; a login answered with a non-2xx status raises; and a
    login that returns a result that is no mapping with a [token] entry
    (the result being the body's [data] member when the body has one)
    leaves the client as it was. *)
Theorem C10_raise_keeps_token self :
  (∀ op e, (Operations.run repr http op self).1 = Raise e →
           (Operations.run repr http op self).2 = self) ∧
  (∀ username password response,
     http (mkRequest POST "/api/auth/login" None
             (Some (credentials username password)) (_headers repr self)) = Return response →
     is_success response = false →
     ∃ e, Operations.run repr http (Operations.Login username password) self =
          (Raise e, self)) ∧
  (∀ username password result,
     (Operations.run repr http (Operations.Login username password) self).1 =
       Return result →
     (∀ d, result = PyDict d → d !! "token" = None) →
     (Operations.run repr http (Operations.Login username password) self).2 = self).
Proof.
  repeat split.
  - intros [path params|path json|path json|path json|path|username password|token] e;
      cbn [Operations.run fst snd]; try done.
    apply (login_keeps_token self username password).
  - intros username password. apply (login_keeps_token self username password).
  - intros username password. apply (login_keeps_token self username password).
Qed.

End Transport.

(** C8. Each filesystem operation, synchronous or not, sends one request,
    to the path [/api/v1/fs/] followed by the quoted path argument; the
    quoted text is the percent-encoding of the argument with nothing but
    the unreserved characters left as they are, so it holds no slash;
    [folder/file.txt] becomes [folder%2Ffile.txt]. *)
Theorem C8_fs_path_quoted repr (t : AetherClient) (path content : string) :
  let segment := Urllib.quote path EmptyString in
  let body := PyDict (<["content" := PyStr content]> ∅) in
  sends (λ http, FSNamespace.read repr http t path)
    (mkRequest GET ("/api/v1/fs/" +:+ segment) None None (_headers repr t)) ∧
  sends (λ http, FSNamespace.write repr http t path content)
    (mkRequest PUT ("/api/v1/fs/" +:+ segment) None (Some body) (_headers repr t)) ∧
  sends (λ http, FSNamespace.delete repr http t path)
    (mkRequest DELETE ("/api/v1/fs/" +:+ segment) None None (_headers repr t)) ∧
  sends (λ http, AsyncFSNamespace.read repr http t path)
    (mkRequest GET ("/api/v1/fs/" +:+ segment) None None (_headers repr t)) ∧
  sends (λ http, AsyncFSNamespace.write repr http t path content)
    (mkRequest PUT ("/api/v1/fs/" +:+ segment) None (Some body) (_headers repr t)) ∧
  sends (λ http, AsyncFSNamespace.delete repr http t path)
    (mkRequest DELETE ("/api/v1/fs/" +:+ segment) None None (_headers repr t)) ∧
  segment = percent_encode path ∧
  Urllib.contains "/" segment = false ∧
  Urllib.quote "folder/file.txt" EmptyString = "folder%2Ffile.txt".
Proof.
  cbv zeta. repeat split; try (intros http; reflexivity).
  - apply quote_percent_encode.
  - apply quote_no_slash.
Qed.

(** C9 (amended). The headers a client builds hold [Authorization] exactly
    when the stored token is truthy, with the value [Bearer <token>], and
    nothing else; the five request helpers send those headers, and the
    event subscription applies the same test to the token it is given. A
    token stored by the constructor or by [set_token] is truthy exactly
    when it is not the empty string. *)
Theorem C9_authorization_header repr (self : AetherClient) :
  let expected :=
    if truthy (_token self)
    then Some ("Bearer " +:+ format_value repr (_token self)) else None in
  _headers repr self !! "Authorization" = expected ∧
  (∀ k, k ≠ "Authorization" → _headers repr self !! k = None) ∧
  (∀ path params, sends (λ http, _get repr http self path params)
     (mkRequest GET path params None (_headers repr self))) ∧
  (∀ path json, sends (λ http, _post repr http self path json)
     (mkRequest POST path None (Some json) (_headers repr self))) ∧
  (∀ path json, sends (λ http, _put repr http self path json)
     (mkRequest PUT path None (Some json) (_headers repr self))) ∧
  (∀ path json, sends (λ http, _patch repr http self path json)
     (mkRequest PATCH path None (Some json) (_headers repr self))) ∧
  (∀ path, sends (λ http, _delete repr http self path)
     (mkRequest DELETE path None None (_headers repr self))) ∧
  (∀ filter,
     headers (Events.subscribe_request repr (_base_url self) (_token self) filter)
       !! "Authorization" = expected) ∧
  (∀ token : string,
     _token (set_token token self).2 = PyStr token ∧
     _token (__init__ (_base_url self) (Some token)) = PyStr token ∧
     truthy (PyStr token) = negb (HttpxSse.is_empty token)) ∧
  truthy (_token (__init__ (_base_url self) None)) = false.
Proof.
  cbv zeta. unfold _headers, Events.subscribe_request.
  repeat split; try (intros; intros http; reflexivity).
  - destruct (truthy (_token self)); [by rewrite lookup_insert|done].
  - intros k Hk. destruct (truthy (_token self)); [|done].
    by rewrite lookup_insert_ne.
  - intros filter. cbn [headers].
    destruct (truthy (_token self)); [by rewrite lookup_insert|done].
  - by destruct token.
Qed.

End ClientFacts.

Lemma C7_login_stores_token_witness :
  login Samples.no_repr (Samples.answering Samples.login_ok) "admin" "secret" (__init__ Samples.localhost None) =
  (Return (PyDict Samples.login_ok_body), mkClient Samples.localhost (PyStr "jwt-1")).
Proof.
  exact (ClientFacts.C7_login_stores_token Samples.no_repr (Samples.answering Samples.login_ok)
    (__init__ Samples.localhost None) "admin" "secret" Samples.login_ok Samples.login_ok_body (PyStr "jwt-1")
    eq_refl eq_refl ltac:(vm_compute; reflexivity) ltac:(vm_compute; reflexivity)
    ltac:(vm_compute; reflexivity)).
Defined.

Lemma C10_raise_keeps_token_witness :
  is_success Samples.login_refused = false ∧
  ∃ e, login Samples.no_repr (Samples.answering Samples.login_refused) "admin" "wrong"
         (__init__ Samples.localhost (Some "old")) =
       (Raise e, __init__ Samples.localhost (Some "old")).
Proof.
  split; [reflexivity|].
  exact (proj1 (proj2 (ClientFacts.C10_raise_keeps_token Samples.no_repr
    (Samples.answering Samples.login_refused) (__init__ Samples.localhost (Some "old"))))
    "admin" "wrong" Samples.login_refused eq_refl eq_refl).
Defined.

(** C10 as stated fails: the body has no [token] entry of its own, the
    login succeeds, and the stored token changes, because the body's
    [data] member is what is searched. *)
Lemma C10_counterexample :
  is_success Samples.login_enveloped = true ∧
  Response_json Samples.login_enveloped =
    Return (PyDict (<["data" := PyDict (<["token" := PyStr "jwt-2"]> ∅)]> ∅)) ∧
  (<["data" := PyDict (<["token" := PyStr "jwt-2"]> ∅)]> ∅ : gmap string pyval)
    !! "token" = None ∧
  login Samples.no_repr (Samples.answering Samples.login_enveloped) "admin" "secret"
    (__init__ Samples.localhost (Some "old")) =
  (Return (PyDict (<["token" := PyStr "jwt-2"]> ∅)), mkClient Samples.localhost (PyStr "jwt-2")) ∧
  PyStr "jwt-2" ≠ _token (__init__ Samples.localhost (Some "old")).
Proof. repeat split; try (vm_compute; reflexivity). discriminate. Qed.

(** C9 as stated fails: a token set with [set_token] or by the constructor
    that is the empty string gives no [Authorization] header. *)
Lemma C9_counterexample :
  _token (set_token EmptyString (__init__ Samples.localhost None)).2 = PyStr EmptyString ∧
  _headers Samples.no_repr (set_token EmptyString (__init__ Samples.localhost None)).2
    !! "Authorization" = None ∧
  _token (__init__ Samples.localhost (Some EmptyString)) = PyStr EmptyString ∧
  _headers Samples.no_repr (__init__ Samples.localhost (Some EmptyString)) !! "Authorization" = None.
Proof. repeat split. Qed.
(* ===================================================================== *)
(** * Further facts about response normalisation *)
(* ===================================================================== *)

Module StringFacts.

Lemma append_cons c (s1 s2 : string) : String c s1 +:+ s2 = String c (s1 +:+ s2).
Proof. reflexivity. Qed.

Lemma append_assoc (s1 s2 s3 : string) : (s1 +:+ s2) +:+ s3 = s1 +:+ (s2 +:+ s3).
Proof. induction s1 as [|c s1 IH]; [done|]. by rewrite !append_cons, IH. Qed.

Lemma append_nil_r (s : string) : s +:+ EmptyString = s.
Proof. induction s as [|c s IH]; [done|]. by rewrite append_cons, IH. Qed.

Lemma length_append (s1 s2 : string) :
  String.length (s1 +:+ s2) = (String.length s1 + String.length s2)%nat.
Proof.
  induction s1 as [|c s1 IH]; [done|].
  rewrite append_cons. cbn [String.length]. by rewrite IH.
Qed.

End StringFacts.

Module ResponseFacts.

Lemma py_or_truthy v s : s ≠ EmptyString → truthy (py_or v (PyStr s)) = true.
Proof.
  intros Hs. unfold py_or. destruct (truthy v) eqn:E; [done|].
  cbn. by destruct s.
Qed.

Lemma http_message_nonempty response : http_message response ≠ EmptyString.
Proof. done. Qed.

Lemma http_code_nonempty response : http_code response ≠ EmptyString.
Proof. done. Qed.

Lemma error_field_raises parsed field e :
  error_field parsed field = Raise e → e = AttributeError.
Proof.
  unfold error_field, get_method. destruct parsed; try done.
  destruct (dict_get _ _ _); congruence.
Qed.

(** [error_field] fails or not whatever the field asked for. *)
Lemma error_field_raises_any parsed field field' e :
  error_field parsed field = Raise e → error_field parsed field' = Raise e.
Proof.
  unfold error_field, get_method. destruct parsed; try done.
  destruct (dict_get _ _ _); congruence.
Qed.

(** The failure branch, by what the first lookup does. *)
Lemma handle_response_failure_cases response :
  is_success response = false →
  (∃ m c,
     error_field (parsed_or_none response) "message" = Return m ∧
     error_field (parsed_or_none response) "code" = Return c ∧
     _handle_response response =
       Raise (ExAether (mkAetherError (py_or m (PyStr (http_message response)))
                                      (py_or c (PyStr (http_code response)))
                                      (status_code response)))) ∨
  (error_field (parsed_or_none response) "message" = Raise AttributeError ∧
   _handle_response response = Raise AttributeError).
Proof.
  intros Hf. unfold _handle_response. rewrite Hf. cbn [negb].
  destruct (error_field (parsed_or_none response) "message") as [m|e] eqn:Em;
    cbn [mbind outcome_bind].
  - destruct (error_field (parsed_or_none response) "code") as [c|e] eqn:Ec;
      cbn [mbind outcome_bind].
    + left. by exists m, c.
    + apply (error_field_raises_any _ _ "message") in Ec. congruence.
  - right. by rewrite (error_field_raises _ _ _ Em).
Qed.

(** The success branch, by what decoding the body does. *)
Lemma handle_response_success_cases response :
  is_success response = true →
  (∃ body, Response_json response = Return body ∧
           ∃ v, _handle_response response = Return v) ∨
  (Response_json response = Raise JSONDecodeError ∧
   _handle_response response = Raise JSONDecodeError).
Proof.
  intros Hs. unfold _handle_response. rewrite Hs. cbn [negb].
  destruct (Response_json response) as [body|e] eqn:E; cbn [mbind outcome_bind].
  - left. exists body. split; [done|].
    destruct body as [| | | | | |d]; try by eexists. destruct (d !! "data"); by eexists.
  - right. apply JsonFacts.loads_raises in E as ->. done.
Qed.

(** Every AetherError that leaves [_handle_response] answers a non-2xx
    response, carries its status, and has a truthy message and a truthy
    code. *)
Theorem handle_response_error_fields response err :
  _handle_response response = Raise (ExAether err) →
  is_success response = false ∧
  status err = status_code response ∧
  truthy (message err) = true ∧
  truthy (code err) = true.
Proof.
  intros H. destruct (is_success response) eqn:Hs.
  - destruct (handle_response_success_cases _ Hs) as [(b & _ & v & Hv)|[_ Hr]]; congruence.
  - destruct (handle_response_failure_cases _ Hs) as [(m & c & _ & _ & Hr)|[_ Hr]];
      [|congruence].
    rewrite Hr in H. simplify_eq. cbn [status message code]. repeat split.
    + apply py_or_truthy, http_message_nonempty.
    + apply py_or_truthy, http_code_nonempty.
Qed.


(** AttributeError leaves [_handle_response] exactly when the response is
    not 2xx and its body parses to a mapping whose [error] entry is
    present and is no mapping. *)
Theorem handle_response_attribute_error response :
  _handle_response response = Raise AttributeError ↔
  is_success response = false ∧
  ∃ d v, Response_json response = Return (PyDict d) ∧
         d !! "error" = Some v ∧ is_dict v = false.
Proof.
  split.
  - intros H. destruct (is_success response) eqn:Hs.
    + destruct (handle_response_success_cases _ Hs) as [(b & _ & v & Hv)|[_ Hr]]; congruence.
    + split; [done|].
      destruct (handle_response_failure_cases _ Hs) as [(m & c & _ & _ & Hr)|[Hr _]];
        [congruence|].
      unfold error_field, parsed_or_none in Hr.
      destruct (Response_json response) as [[| | | | | |d]|e']; try done.
      unfold dict_get, get_method in Hr. exists d.
      destruct (d !! "error") as [v|]; cbn in Hr; [|done].
      exists v. repeat split. by destruct v.
  - intros (Hf & d & v & Hb & Hd & Hv).
    destruct (handle_response_failure_cases _ Hf) as [(m & c & Hm & _ & _)|[_ Hr]];
      [|done].
    unfold error_field, parsed_or_none in Hm. rewrite Hb in Hm.
    unfold dict_get, get_method in Hm. rewrite Hd in Hm. cbn in Hm.
    by destruct v.
Qed.

(** A non-2xx response whose body is not JSON raises the AetherError made
    of the HTTP-level texts, and its [str] is
    [[HTTP_<status>] HTTP <status>: <reason> (HTTP <status>)]. *)
Theorem handle_response_fallback repr response e :
  is_success response = false →
  Response_json response = Raise e →
  ∃ err, _handle_response response = Raise (ExAether err) ∧
         message err = PyStr (http_message response) ∧
         code err = PyStr (http_code response) ∧
         status err = status_code response ∧
         Exceptions.__str__ repr err =
           "[HTTP_" +:+ pretty (status_code response) +:+ "] HTTP " +:+
           pretty (status_code response) +:+ ": " +:+ reason_phrase response +:+
           " (HTTP " +:+ pretty (status_code response) +:+ ")".
Proof.
  intros Hf Hb. eexists. split.
  - unfold _handle_response, parsed_or_none. rewrite Hf, Hb. cbn. reflexivity.
  - cbn [message code status]. repeat split.
    unfold Exceptions.__str__, http_message, http_code. cbn [message code status format_value].
    by rewrite !StringFacts.append_assoc.
Qed.


Section Helpers.
Variable repr : pyval → string.
Variable http : Request → outcome Response.

(** A fault raised by the connection leaves each request helper, and
    [login], as the same exception: it is not turned into an AetherError,
    and [login] leaves the client as it was. *)
Theorem transport_fault_propagates self path params json username password e :
  (∀ request, http request = Raise e) →
  _get repr http self path params = Raise e ∧
  _post repr http self path json = Raise e ∧
  _put repr http self path json = Raise e ∧
  _patch repr http self path json = Raise e ∧
  _delete repr http self path = Raise e ∧
  login repr http username password self = (Raise e, self).
Proof.
  intros H. unfold login, _get, _post, _put, _patch, _delete.
  by rewrite !H.
Qed.

End Helpers.
End ResponseFacts.

(* ===================================================================== *)
(** * Further facts about login and the base URL *)
(* ===================================================================== *)

Module LoginFacts.
Import Spec.

Section Login.
Variable repr : pyval → string.
Variable http : Request → outcome Response.

(** [login] never touches the base URL, and the client afterwards is the
    client before unless the call returned a mapping with a [token] entry,
    whose value is then the stored token. *)
Theorem login_state self username password :
  _base_url (login repr http username password self).2 = _base_url self ∧
  ((login repr http username password self).2 = self ∨
   ∃ d t, (login repr http username password self).1 = Return (PyDict d) ∧
          d !! "token" = Some t ∧
          _token (login repr http username password self).2 = t).
Proof.
  unfold login.
  destruct (_post repr http self "/api/auth/login" (credentials username password))
    as [[| | | | | |d]|e]; try (split; [done|by left]).
  destruct (d !! "token") as [t|] eqn:Et; [|split; [done|by left]].
  split; [done|]. right. by exists d, t.
Qed.

(** After a login answered with 2xx and a mapping without [data] whose
    [token] entry is [t], the headers of the next request hold
    [Bearer <t>] when [t] is truthy and no [Authorization] at all when it
    is not (a null or empty token), whatever was stored before. *)
Theorem login_then_headers self username password response d t :
  login_answered repr http self username password response →
  is_success response = true →
  Response_json response = Return (PyDict d) →
  d !! "data" = None →
  d !! "token" = Some t →
  _headers repr (login repr http username password self).2 =
    if truthy t then <["Authorization" := "Bearer " +:+ format_value repr t]> ∅ else ∅.
Proof.
  unfold login_answered. intros Hh Hok Hb Hd Ht.
  unfold login, _post. rewrite Hh. cbn [mbind outcome_bind].
  unfold _handle_response. rewrite Hok, Hb. cbn [negb mbind outcome_bind].
  rewrite Hd, Ht. reflexivity.
Qed.

(** A login answered with 2xx and an enveloped body stores the [token]
    entry of the [data] member and returns that member. *)
Theorem login_unwraps_envelope self username password response d inner t :
  login_answered repr http self username password response →
  is_success response = true →
  Response_json response = Return (PyDict d) →
  d !! "data" = Some (PyDict inner) →
  inner !! "token" = Some t →
  login repr http username password self =
    (Return (PyDict inner), mkClient (_base_url self) t).
Proof.
  unfold login_answered. intros Hh Hok Hb Hd Ht.
  unfold login, _post. rewrite Hh. cbn [mbind outcome_bind].
  unfold _handle_response. rewrite Hok, Hb. cbn [negb mbind outcome_bind].
  by rewrite Hd, Ht.
Qed.

(** A [token] entry beside a [data] member is not stored: when the
    [data] member is no mapping with a [token] entry of its own, the
    client is left as it was. *)
Theorem login_ignores_token_beside_data self username password response d v t :
  login_answered repr http self username password response →
  is_success response = true →
  Response_json response = Return (PyDict d) →
  d !! "token" = Some t →
  d !! "data" = Some v →
  (∀ inner, v = PyDict inner → inner !! "token" = None) →
  login repr http username password self = (Return v, self).
Proof.
  unfold login_answered. intros Hh Hok Hb _ Hd Hv.
  unfold login, _post. rewrite Hh. cbn [mbind outcome_bind].
  unfold _handle_response. rewrite Hok, Hb. cbn [negb mbind outcome_bind].
  rewrite Hd. destruct v as [| | | | | |inner]; try done.
  by rewrite (Hv inner eq_refl).
Qed.

End Login.

Lemma rstrip_slash_slashes n : rstrip_slash (slashes n) = EmptyString.
Proof. induction n as [|n IH]; [done|]. cbn [slashes rstrip_slash]. by rewrite IH. Qed.

Lemma rstrip_slash_split s :
  ∃ n, s = rstrip_slash s +:+ slashes n.
Proof.
  induction s as [|c s [n IH]]; [by exists 0%nat|].
  cbn [rstrip_slash]. destruct (rstrip_slash s) as [|c' r] eqn:E.
  - cbn in IH. subst s. destruct (Ascii.eqb_spec c "/") as [->|Hc].
    + by exists (S n).
    + by exists n.
  - exists n. rewrite StringFacts.append_cons. by rewrite <- IH.
Qed.

Lemma rstrip_slash_no_slash s : ends_with_slash (rstrip_slash s) = false.
Proof.
  induction s as [|c s IH]; [done|].
  cbn [rstrip_slash]. destruct (rstrip_slash s) as [|c' r] eqn:E.
  - destruct (Ascii.eqb c "/") eqn:Ec; [done|]. cbn. exact Ec.
  - exact IH.
Qed.

Lemma rstrip_slash_app_slashes s n : rstrip_slash (s +:+ slashes n) = rstrip_slash s.
Proof.
  induction s as [|c s IH].
  - apply rstrip_slash_slashes.
  - rewrite StringFacts.append_cons. cbn [rstrip_slash]. by rewrite IH.
Qed.

Lemma rstrip_slash_idemp s : rstrip_slash (rstrip_slash s) = rstrip_slash s.
Proof.
  destruct (rstrip_slash_split s) as [n Hn].
  by rewrite <- (rstrip_slash_app_slashes (rstrip_slash s) n), <- Hn.
Qed.

(** The constructor keeps the base URL up to its trailing slashes: what is
    stored does not end in a slash, and the argument is what is stored
    followed by slashes only. *)
Theorem init_base_url base_url token :
  ends_with_slash (_base_url (__init__ base_url token)) = false ∧
  ∃ n, base_url = _base_url (__init__ base_url token) +:+ slashes n.
Proof. split; [apply rstrip_slash_no_slash | apply rstrip_slash_split]. Qed.

(** Trailing slashes of the base URL do not change the address of the
    event stream; for a client built by the constructor it is the stored
    base URL followed by [/api/v1/events]. *)
Theorem subscribe_url repr base_url n token init_token filter :
  url (Events.subscribe_request repr (base_url +:+ slashes n) token filter) =
    url (Events.subscribe_request repr base_url token filter) ∧
  url (Events.subscribe_request repr (_base_url (__init__ base_url init_token)) token filter) =
    _base_url (__init__ base_url init_token) +:+ "/api/v1/events".
Proof.
  unfold Events.subscribe_request. cbn [url __init__ _base_url].
  by rewrite rstrip_slash_app_slashes, rstrip_slash_idemp.
Qed.

End LoginFacts.

(* ===================================================================== *)
(** * Further facts about the event stream reader *)
(* ===================================================================== *)

Module StreamFacts.
Import HttpxSse Events Spec SseFacts.

Lemma length_omap_le {A B} (f : A → option B) (l : list A) :
  (length (omap f l) ≤ length l)%nat.
Proof.
  induction l as [|a l IH]; [done|]. cbn [omap list_omap].
  destruct (f a); cbn [length]; lia.
Qed.

Lemma strip_prefix_app p s : Json.strip_prefix p (p +:+ s) = Some s.
Proof.
  induction p as [|c p IH]; [done|].
  rewrite StringFacts.append_cons. cbn [Json.strip_prefix].
  by rewrite Ascii.eqb_refl.
Qed.

Section Stream.
Variable repr : pyval → string.
Variable int_of_str : string → option Z.
Variable connect_sse : Request → outcome EventSource.

(** Only a blank line dispatches an event. *)
Lemma decode_dispatch_blank self line e :
  (decode int_of_str self line).2 = Some e → is_empty line = true.
Proof.
  unfold decode. destruct (is_empty line); [done|].
  destruct (starts_with_colon line); [done|].
  destruct (partition_colon line) as [fieldname value0].
  destruct (String.eqb fieldname "event"); [done|].
  destruct (String.eqb fieldname "data"); [done|].
  destruct (String.eqb fieldname "id").
  { by destruct (has_nul (strip_one_space value0)). }
  destruct (String.eqb fieldname "retry"); [|done].
  by destruct (int_of_str (strip_one_space value0)).
Qed.

Lemma feed_length lines : ∀ self,
  (length (feed int_of_str self lines).2 ≤ count_blank lines)%nat.
Proof.
  unfold count_blank.
  induction lines as [|line rest IH]; intros self; [done|].
  rewrite feed_cons. cbn [snd List.filter].
  specialize (IH (decode int_of_str self line).1).
  destruct (decode int_of_str self line).2 as [e|] eqn:E.
  - rewrite (decode_dispatch_blank _ _ _ E). cbn [length]. lia.
  - destruct (is_empty line); cbn [length]; lia.
Qed.

(** A line that is not blank and whose field name is not [data] leaves
    the data buffer alone and dispatches nothing. *)
Lemma decode_other_field self line :
  is_empty line = false →
  String.eqb (partition_colon line).1 "data" = false →
  _data (decode int_of_str self line).1 = _data self ∧
  (decode int_of_str self line).2 = None.
Proof.
  intros Hl Hf. unfold decode. rewrite Hl.
  destruct (starts_with_colon line); [done|].
  destruct (partition_colon line) as [fieldname value0]. cbn [fst] in Hf.
  destruct (String.eqb fieldname "event"); [done|]. rewrite Hf.
  destruct (String.eqb fieldname "id").
  { by destruct (has_nul (strip_one_space value0)). }
  destruct (String.eqb fieldname "retry"); [|done].
  by destruct (int_of_str (strip_one_space value0)).
Qed.

(** The texts a stream of one-line records hands to the decoder. *)
Lemma single_line_texts payloads :
  nonempty_texts (iter_sse int_of_str (concat ((λ p, record [p]) <$> payloads))) =
  nonempty payloads.
Proof.
  induction payloads as [|p ps IH]; [done|].
  cbn [fmap list_fmap concat].
  destruct (feed_record int_of_str new_decoder [p] eq_refl) as [Hd _].
  rewrite LoopFacts.iter_texts_app by done.
  rewrite LoopFacts.record_texts, IH.
  unfold nonempty. cbn [List.filter join_lf]. by destruct (negb (is_empty p)).
Qed.

Lemma collected_yield events v g :
  collected (events ++ [v]) g = collected events (yield v g).
Proof. unfold collected, yield. cbn. destruct (raised g); [done|]. by rewrite <- app_assoc. Qed.

Lemma parse_lines_records payloads : ∀ events,
  TestSSEEventParsing.parse_lines (concat ((λ p, record [p]) <$> payloads))
    events EmptyString = collected events (texts_loop (nonempty payloads)).
Proof.
  induction payloads as [|p ps IH]; intros events.
  { unfold collected. cbn. by rewrite app_nil_r. }
  cbn [fmap list_fmap concat].
  change (record [p]) with [data_line p; EmptyString].
  cbn [app TestSSEEventParsing.parse_lines].
  unfold data_line at 1. rewrite strip_prefix_app.
  change (EmptyString +:+ p) with p.
  cbn [Json.strip_prefix is_empty andb].
  unfold nonempty. cbn [List.filter]. fold (nonempty ps).
  destruct (is_empty p) eqn:Ep; cbn [negb].
  - destruct p; [|done]. apply IH.
  - cbn [texts_loop]. destruct (Json.loads p) as [v|[]]; rewrite ?IH; try done.
    apply collected_yield.
Qed.

Lemma parse_lines_multiline_records payloads : ∀ events,
  TestSSEEventParsing.parse_lines_multiline (concat ((λ p, record [p]) <$> payloads))
    events EmptyString = collected events (texts_loop (nonempty payloads)).
Proof.
  induction payloads as [|p ps IH]; intros events.
  { unfold collected. cbn. by rewrite app_nil_r. }
  cbn [fmap list_fmap concat].
  change (record [p]) with [data_line p; EmptyString].
  cbn [app TestSSEEventParsing.parse_lines_multiline].
  unfold data_line at 1. rewrite strip_prefix_app.
  change (EmptyString +:+ p) with p.
  cbn [Json.strip_prefix is_empty andb].
  unfold nonempty. cbn [List.filter]. fold (nonempty ps).
  destruct (is_empty p) eqn:Ep; cbn [negb].
  - destruct p; [|done]. apply IH.
  - cbn [texts_loop]. destruct (Json.loads p) as [v|[]]; rewrite ?IH; try done.
    apply collected_yield.
Qed.

(** The loop lets no JSONDecodeError out. *)
Lemma texts_loop_catches texts : raised (texts_loop texts) ≠ Some JSONDecodeError.
Proof.
  induction texts as [|t rest IH]; [done|].
  cbn [texts_loop]. destruct (Json.loads t) as [v|[]]; done.
Qed.

Lemma texts_loop_length texts :
  (length (yielded (texts_loop texts)) ≤ length texts)%nat.
Proof.
  induction texts as [|t rest IH]; [done|].
  cbn [texts_loop]. destruct (Json.loads t) as [v|[]]; cbn [yield yielded length]; lia.
Qed.

Lemma nonempty_length texts : (length (nonempty texts) ≤ length texts)%nat.
Proof.
  induction texts as [|t rest IH]; [done|].
  unfold nonempty in *. cbn [List.filter]. destruct (negb (is_empty t)); cbn [length]; lia.
Qed.

(** On a 2xx stream no JSONDecodeError leaves the generator, whatever the
    lines hold, and it yields at most one event per blank line. *)
Theorem stream_catches_decode_errors base_url token filter event_source :
  connect_sse (subscribe_request repr base_url token filter) = Return event_source →
  is_success (response event_source) = true →
  raised (subscribe_events repr int_of_str connect_sse base_url token filter)
    ≠ Some JSONDecodeError ∧
  (length (yielded (subscribe_events repr int_of_str connect_sse base_url token filter))
   ≤ count_blank (body_lines event_source))%nat.
Proof.
  intros Hc Hok. unfold subscribe_events. rewrite Hc, Hok.
  rewrite LoopFacts.each_sse_loop. split; [apply texts_loop_catches|].
  etrans; [apply texts_loop_length|].
  etrans; [apply nonempty_length|].
  rewrite length_fmap. apply feed_length.
Qed.

(** Data lines at the end of the stream that no blank line follows are
    dropped: the generator is the one of the lines before them. *)
Theorem unterminated_record_dropped base_url token filter resp lines payloads :
  connect_sse (subscribe_request repr base_url token filter) =
    Return (mkEventSource resp (lines ++ (data_line <$> payloads))) →
  is_success resp = true →
  subscribe_events repr int_of_str connect_sse base_url token filter =
    each_sse (iter_sse int_of_str lines).
Proof.
  intros Hc Hok. unfold subscribe_events. rewrite Hc. cbn [response body_lines].
  rewrite Hok. f_equal. unfold iter_sse. rewrite feed_app.
  destruct (feed int_of_str new_decoder lines) as [d1 out1].
  rewrite feed_data_lines. cbn [snd]. by rewrite app_nil_r.
Qed.

(** A line that is not blank and is no [data] field (a comment, [event],
    [id], [retry], anything else) can be taken out of a 2xx stream: the
    run of the generator is its run on the lines without it. *)
Theorem other_fields_transparent base_url token filter resp before line after :
  connect_sse (subscribe_request repr base_url token filter) =
    Return (mkEventSource resp (before ++ line :: after)) →
  is_success resp = true →
  is_empty line = false →
  String.eqb (partition_colon line).1 "data" = false →
  subscribe_events repr int_of_str connect_sse base_url token filter =
    each_sse (iter_sse int_of_str (before ++ after)).
Proof.
  intros Hc Hok Hl Hf.
  unfold subscribe_events. rewrite Hc. cbn [response body_lines]. rewrite Hok.
  rewrite !LoopFacts.each_sse_loop. f_equal.
  unfold iter_sse. rewrite !feed_app.
  destruct (feed int_of_str new_decoder before) as [d1 out1].
  rewrite feed_cons.
  destruct (decode_other_field d1 line Hl Hf) as [Hd Hn]. rewrite Hn.
  pose proof (LoopFacts.feed_texts_only int_of_str after _ _ Hd) as Hsim.
  destruct (feed int_of_str (decode int_of_str d1 line).1 after) as [d2 out2].
  destruct (feed int_of_str d1 after) as [d3 out3]. cbn [fst snd] in *.
  by rewrite !LoopFacts.nonempty_texts_app, Hsim.
Qed.


(** On a stream of records of one [data: ] line each (the prefix with
    its space), the reference loops of the test suite and the reader agree:
    a loop returns the events the reader yields when the reader raises
    nothing, and is left by the exception the reader raises otherwise. *)
Theorem test_loops_agree_on_single_line_records payloads :
  let lines := concat ((λ p, record [p]) <$> payloads) in
  let reader := each_sse (iter_sse int_of_str lines) in
  TestSSEEventParsing.parse_lines lines [] EmptyString =
    match raised reader with Some e => Raise e | None => Return (yielded reader) end ∧
  TestSSEEventParsing.parse_lines_multiline lines [] EmptyString =
    match raised reader with Some e => Raise e | None => Return (yielded reader) end.
Proof.
  cbv zeta. rewrite LoopFacts.each_sse_loop, single_line_texts.
  by rewrite parse_lines_records, parse_lines_multiline_records.
Qed.


End Stream.
End StreamFacts.

(* ===================================================================== *)
(** * Further facts about the namespaces *)
(* ===================================================================== *)

Module NamespaceFacts.
Import Spec.

Lemma quoter_decode c rest :
  percent_decode (Urllib.quoter EmptyString c +:+ rest) = String c (percent_decode rest).
Proof. destruct c as [[] [] [] [] [] [] [] []]; reflexivity. Qed.

Lemma quote_round_trip s : percent_decode (Urllib.quote s EmptyString) = s.
Proof.
  induction s as [|c s IH]; [done|].
  cbn [Urllib.quote]. by rewrite quoter_decode, IH.
Qed.

Lemma quoter_bytes c : string_forall encoded_byte (Urllib.quoter EmptyString c) = true.
Proof. destruct c as [[] [] [] [] [] [] [] []]; vm_compute; reflexivity. Qed.

Lemma quoter_length c :
  (String.length (Urllib.quoter EmptyString c) ≤ 3)%nat.
Proof. destruct c as [[] [] [] [] [] [] [] []]; vm_compute; lia. Qed.

Lemma quoter_unreserved c :
  Urllib.contains c unreserved = true →
  Urllib.quoter EmptyString c = String c EmptyString.
Proof. destruct c as [[] [] [] [] [] [] [] []]; vm_compute; congruence. Qed.

Lemma string_forall_app f s1 s2 :
  string_forall f (s1 +:+ s2) = string_forall f s1 && string_forall f s2.
Proof.
  induction s1 as [|c s1 IH]; [done|].
  rewrite StringFacts.append_cons. cbn [string_forall]. by rewrite IH, andb_assoc.
Qed.

(** Two requests an operation sends have the same address. *)
Lemma sends_url op r1 r2 : sends op r1 → sends op r2 → url r1 = url r2.
Proof.
  intros H1 H2.
  set (http := λ q : Request,
    if String.eqb (url q) (url r1)
    then Return (mkResponse 200 EmptyString "0") else Raise TransportError).
  specialize (H1 http). specialize (H2 http). rewrite H1 in H2.
  unfold http in H2. rewrite String.eqb_refl in H2.
  destruct (String.eqb_spec (url r2) (url r1)) as [->|Hne]; [done|].
  vm_compute in H2. discriminate.
Qed.

(** The path segment of a filesystem request decodes back to the path
    argument, so two different paths are never read, written or deleted
    through the same address. *)
Theorem fs_path_round_trip repr t (path path' content content' : string) :
  percent_decode (Urllib.quote path EmptyString) = path ∧
  (∀ request,
     sends (λ http, FSNamespace.read repr http t path) request →
     sends (λ http, FSNamespace.read repr http t path') request → path = path') ∧
  (∀ request,
     sends (λ http, FSNamespace.write repr http t path content) request →
     sends (λ http, FSNamespace.write repr http t path' content') request → path = path') ∧
  (∀ request,
     sends (λ http, FSNamespace.delete repr http t path) request →
     sends (λ http, FSNamespace.delete repr http t path') request → path = path').
Proof.
  assert (Hinj : ∀ r r' : Request,
    url r = "/api/v1/fs/" +:+ Urllib.quote path EmptyString →
    url r' = "/api/v1/fs/" +:+ Urllib.quote path' EmptyString →
    url r = url r' → path = path').
  { intros r r' -> -> H. apply (inj _) in H.
    by rewrite <- (quote_round_trip path), H, quote_round_trip. }
  split; [apply quote_round_trip|].
  repeat split; intros request H1 H2.
  - eapply (Hinj (mkRequest GET _ None None _) (mkRequest GET _ None None _));
      [reflexivity..|].
    etrans; [|symmetry]; eapply sends_url; [|exact H1| |exact H2];
      intros http; reflexivity.
  - eapply (Hinj (mkRequest PUT _ None (Some _) _) (mkRequest PUT _ None (Some _) _));
      [reflexivity..|].
    etrans; [|symmetry]; eapply sends_url; [|exact H1| |exact H2];
      intros http; reflexivity.
  - eapply (Hinj (mkRequest DELETE _ None None _) (mkRequest DELETE _ None None _));
      [reflexivity..|].
    etrans; [|symmetry]; eapply sends_url; [|exact H1| |exact H2];
      intros http; reflexivity.
Qed.

(** The path segment of a filesystem request is made of unreserved
    characters and percent signs only, and has at most three times as many
    bytes as the UTF-8 encoding of the path argument (a [str] here is its
    UTF-8 bytes, so [String.length] counts bytes, not characters). *)
Theorem fs_segment_bytes (path : string) :
  string_forall encoded_byte (Urllib.quote path EmptyString) = true ∧
  (String.length (Urllib.quote path EmptyString) ≤ 3 * String.length path)%nat.
Proof.
  induction path as [|c path [IH1 IH2]]; [done|].
  cbn [Urllib.quote]. split.
  - by rewrite string_forall_app, quoter_bytes, IH1.
  - rewrite StringFacts.length_append. pose proof (quoter_length c).
    cbn [String.length]. lia.
Qed.

(** A path made of unreserved characters only is its own path segment. *)
Theorem fs_unreserved_path_unchanged (path : string) :
  string_forall (λ c, Urllib.contains c unreserved) path = true →
  Urllib.quote path EmptyString = path.
Proof.
  induction path as [|c path IH]; [done|].
  cbn [string_forall Urllib.quote]. intros [Hc Hp]%andb_true_iff.
  by rewrite (quoter_unreserved c Hc), (IH Hp).
Qed.

(** The agent listing sends, as query parameters, exactly its arguments
    that are not [None]: a limit or offset of 0 is sent, and with no
    argument the parameters are an empty mapping. *)
Theorem agents_list_params repr t status limit offset :
  let params := AgentsNamespace.list_params status limit offset in
  sends (λ http, AgentsNamespace.list repr http t status limit offset)
    (mkRequest GET "/api/v1/agents" (Some params) None (_headers repr t)) ∧
  params !! "status" = PyStr <$> status ∧
  params !! "limit" = PyInt <$> limit ∧
  params !! "offset" = PyInt <$> offset ∧
  (∀ k, k ≠ "status" → k ≠ "limit" → k ≠ "offset" → params !! k = None) ∧
  (status = None → limit = None → offset = None → params = ∅).
Proof.
  cbv zeta. unfold AgentsNamespace.list_params.
  split; [intros http; reflexivity|].
  destruct status, limit, offset; repeat split; intros; by simplify_map_eq.
Qed.

End NamespaceFacts.

Module MoreFacts.
Import HttpxSse Events Spec SseFacts.

(** What [_handle_response] returns comes from a 2xx response whose body
    decodes: it is the body itself, or the [data] member of a body that
    is a mapping. *)
Theorem handle_response_returns response v :
  _handle_response response = Return v →
  200 ≤ status_code response ≤ 299 ∧
  ∃ body, Response_json response = Return body ∧
          (v = body ∨ ∃ d, body = PyDict d ∧ d !! "data" = Some v).
Proof.
  intros H. destruct (is_success response) eqn:Hs.
  - split; [unfold is_success in Hs; lia|].
    unfold _handle_response in H. rewrite Hs in H. cbn [negb] in H.
    destruct (Response_json response) as [body|e]; [|done].
    exists body. split; [done|]. cbn [mbind outcome_bind] in H.
    destruct body as [| | | | | |d]; simplify_eq; try by left.
    destruct (d !! "data") as [inner|] eqn:Ed; simplify_eq; [|by left].
    right. by exists d.
  - destruct (ClientFacts.handle_response_failure_raises _ Hs) as [e He]. congruence.
Qed.

(** On 2xx responses the outcome depends on the body alone: neither the
    status code within 200..299 nor the reason phrase matters. *)
Theorem handle_response_success_body_only response response' :
  is_success response = true →
  is_success response' = true →
  content response = content response' →
  _handle_response response = _handle_response response'.
Proof.
  intros Hs Hs' Hc. unfold _handle_response, Response_json.
  by rewrite Hs, Hs', Hc.
Qed.

Section Stream.
Variable repr : pyval → string.
Variable int_of_str : string → option Z.
Variable connect_sse : Request → outcome EventSource.

(** The event subscription of a client sends the headers of its other
    requests with [Accept: text/event-stream] added, so it follows the
    token the client holds when [subscribe] is called. *)
Theorem subscribe_headers self filter :
  headers (subscribe_request repr (_base_url self) (_token self) filter) =
    <["Accept" := "text/event-stream"]> (_headers repr self) ∧
  subscribe repr int_of_str connect_sse self filter =
    subscribe_events repr int_of_str connect_sse (_base_url self) (_token self) filter.
Proof.
  split; [|done]. unfold subscribe_request, _headers. cbn [headers].
  destruct (truthy (_token self)); [|done].
  by apply insert_insert_ne.
Qed.

Lemma feed_heartbeats lines :
  Forall (λ line, is_empty line = true ∨ starts_with_colon line = true) lines →
  feed int_of_str new_decoder lines = (new_decoder, []).
Proof.
  induction 1 as [|line rest Hl _ IH]; [done|].
  cbn [feed]. unfold decode at 1. destruct Hl as [Hl|Hl].
  - rewrite Hl. cbn. by rewrite IH.
  - destruct line as [|c line]; [done|]. cbn [is_empty]. rewrite Hl. by rewrite IH.
Qed.

(** A 2xx stream of blank lines and comment lines only (a keep-alive
    stream) yields nothing and raises nothing. *)
Theorem heartbeat_stream_yields_nothing base_url token filter resp lines :
  connect_sse (subscribe_request repr base_url token filter) =
    Return (mkEventSource resp lines) →
  is_success resp = true →
  Forall (λ line, is_empty line = true ∨ starts_with_colon line = true) lines →
  subscribe_events repr int_of_str connect_sse base_url token filter =
    mkGenerator [] None.
Proof.
  intros Hc Hok Hl. unfold subscribe_events. rewrite Hc. cbn [response body_lines].
  rewrite Hok. unfold iter_sse. by rewrite (feed_heartbeats _ Hl).
Qed.

End Stream.
End MoreFacts.

(** ** Instances *)

Lemma handle_response_error_fields_witness :
  _handle_response Samples.not_found =
    Raise (ExAether (mkAetherError (PyStr "No such agent") (PyStr "AGENT_NOT_FOUND") 404)) ∧
  is_success Samples.not_found = false ∧
  truthy (PyStr "No such agent") = true ∧
  truthy (PyStr "AGENT_NOT_FOUND") = true.
Proof.
  assert (H : _handle_response Samples.not_found =
    Raise (ExAether (mkAetherError (PyStr "No such agent") (PyStr "AGENT_NOT_FOUND") 404)))
    by (vm_compute; reflexivity).
  split; [exact H|].
  destruct (ResponseFacts.handle_response_error_fields _ _ H) as (H1 & _ & H3 & H4).
  by repeat split.
Defined.


Lemma handle_response_fallback_witness :
  is_success Samples.bad_gateway = false ∧
  Response_json Samples.bad_gateway = Raise JSONDecodeError ∧
  ∃ err, _handle_response Samples.bad_gateway = Raise (ExAether err) ∧
         message err = PyStr "HTTP 502: Bad Gateway" ∧
         code err = PyStr "HTTP_502" ∧
         status err = 502 ∧
         Exceptions.__str__ Samples.no_repr err =
           "[HTTP_502] HTTP 502: Bad Gateway (HTTP 502)".
Proof.
  assert (H1 : is_success Samples.bad_gateway = false) by reflexivity.
  assert (H2 : Response_json Samples.bad_gateway = Raise JSONDecodeError)
    by (vm_compute; reflexivity).
  split; [exact H1|]. split; [exact H2|].
  exact (ResponseFacts.handle_response_fallback Samples.no_repr _ _ H1 H2).
Defined.


Lemma handle_response_returns_witness :
  _handle_response Samples.enveloped = Return (PyList [PyInt 1; PyInt 2; PyInt 3]) ∧
  200 ≤ 200 ≤ 299.
Proof.
  assert (H : _handle_response Samples.enveloped =
    Return (PyList [PyInt 1; PyInt 2; PyInt 3])) by (vm_compute; reflexivity).
  split; [exact H|]. exact (proj1 (MoreFacts.handle_response_returns _ _ H)).
Defined.

Lemma handle_response_success_body_only_witness :
  _handle_response Samples.enveloped =
  _handle_response (mkResponse 201 "Created" (content Samples.enveloped)).
Proof.
  exact (MoreFacts.handle_response_success_body_only Samples.enveloped
    (mkResponse 201 "Created" (content Samples.enveloped)) eq_refl eq_refl eq_refl).
Defined.

Lemma transport_fault_propagates_witness :
  _get Samples.no_repr Samples.unreachable (__init__ Samples.localhost None)
    "/api/v1/agents" None = Raise TransportError ∧
  login Samples.no_repr Samples.unreachable "admin" "secret"
    (__init__ Samples.localhost (Some "old")) =
  (Raise TransportError, __init__ Samples.localhost (Some "old")).
Proof.
  split.
  - exact (proj1 (ResponseFacts.transport_fault_propagates Samples.no_repr
      Samples.unreachable (__init__ Samples.localhost None) "/api/v1/agents" None PyNone
      "admin" "secret" TransportError (λ _, eq_refl))).
  - exact (proj2 (proj2 (proj2 (proj2 (proj2
      (ResponseFacts.transport_fault_propagates Samples.no_repr
      Samples.unreachable (__init__ Samples.localhost (Some "old")) "/api/v1/agents" None
      PyNone "admin" "secret" TransportError (λ _, eq_refl))))))).
Defined.

Lemma login_then_headers_witness :
  _headers Samples.no_repr
    (login Samples.no_repr (Samples.answering Samples.login_ok) "admin" "secret"
       (__init__ Samples.localhost None)).2 =
    <["Authorization" := "Bearer jwt-1"]> ∅ ∧
  _headers Samples.no_repr
    (login Samples.no_repr (Samples.answering Samples.login_null_token) "admin" "secret"
       (__init__ Samples.localhost (Some "old"))).2 = ∅.
Proof.
  split.
  - exact (LoginFacts.login_then_headers Samples.no_repr (Samples.answering Samples.login_ok)
      (__init__ Samples.localhost None) "admin" "secret" Samples.login_ok
      Samples.login_ok_body (PyStr "jwt-1") eq_refl eq_refl
      ltac:(vm_compute; reflexivity) ltac:(vm_compute; reflexivity)
      ltac:(vm_compute; reflexivity)).
  - exact (LoginFacts.login_then_headers Samples.no_repr
      (Samples.answering Samples.login_null_token)
      (__init__ Samples.localhost (Some "old")) "admin" "secret" Samples.login_null_token
      Samples.login_null_body PyNone eq_refl eq_refl
      ltac:(vm_compute; reflexivity) ltac:(vm_compute; reflexivity)
      ltac:(vm_compute; reflexivity)).
Defined.

Lemma login_unwraps_envelope_witness :
  login Samples.no_repr (Samples.answering Samples.login_enveloped) "admin" "secret"
    (__init__ Samples.localhost (Some "old")) =
  (Return (PyDict Samples.login_enveloped_inner),
   mkClient Samples.localhost (PyStr "jwt-2")).
Proof.
  exact (LoginFacts.login_unwraps_envelope Samples.no_repr
    (Samples.answering Samples.login_enveloped)
    (__init__ Samples.localhost (Some "old")) "admin" "secret" Samples.login_enveloped
    Samples.login_enveloped_body Samples.login_enveloped_inner (PyStr "jwt-2")
    eq_refl eq_refl
    ltac:(vm_compute; reflexivity) ltac:(vm_compute; reflexivity)
    ltac:(vm_compute; reflexivity)).
Defined.

Lemma login_ignores_token_beside_data_witness :
  login Samples.no_repr (Samples.answering Samples.login_token_beside_data)
    "admin" "secret" (__init__ Samples.localhost (Some "old")) =
  (Return (PyDict (<["user" := PyStr "u"]> ∅)), __init__ Samples.localhost (Some "old")).
Proof.
  refine (LoginFacts.login_ignores_token_beside_data Samples.no_repr
    (Samples.answering Samples.login_token_beside_data)
    (__init__ Samples.localhost (Some "old")) "admin" "secret"
    Samples.login_token_beside_data
    Samples.login_beside_body
    (PyDict (<["user" := PyStr "u"]> ∅)) (PyStr "a") eq_refl eq_refl _ _ _ _).
  - vm_compute. reflexivity.
  - vm_compute. reflexivity.
  - vm_compute. reflexivity.
  - intros inner [= <-]. vm_compute. reflexivity.
Defined.

Lemma stream_catches_decode_errors_witness :
  Events.raised (Events.subscribe_events Samples.no_repr Samples.no_int
    (Samples.ok_stream Samples.malformed_then_valid) Samples.localhost PyNone None)
    ≠ Some JSONDecodeError ∧
  (length (Events.yielded (Events.subscribe_events Samples.no_repr Samples.no_int
     (Samples.ok_stream Samples.malformed_then_valid) Samples.localhost PyNone None))
   ≤ 2)%nat.
Proof.
  exact (StreamFacts.stream_catches_decode_errors Samples.no_repr Samples.no_int
    (Samples.ok_stream Samples.malformed_then_valid) Samples.localhost PyNone None
    (Events.mkEventSource (mkResponse 200 "OK" EmptyString) Samples.malformed_then_valid)
    eq_refl eq_refl).
Defined.

Lemma unterminated_record_dropped_witness :
  Events.subscribe_events Samples.no_repr Samples.no_int
    (Samples.ok_stream (Spec.record [Samples.typed "a"] ++ [Spec.data_line (Samples.typed "b")]))
    Samples.localhost PyNone None =
  Events.mkGenerator [Samples.type_event "a"] None.
Proof.
  rewrite (StreamFacts.unterminated_record_dropped Samples.no_repr Samples.no_int
    (Samples.ok_stream (Spec.record [Samples.typed "a"] ++ [Spec.data_line (Samples.typed "b")]))
    Samples.localhost PyNone None (mkResponse 200 "OK" EmptyString)
    (Spec.record [Samples.typed "a"]) [Samples.typed "b"] eq_refl eq_refl).
  vm_compute. reflexivity.
Defined.

Lemma other_fields_transparent_witness :
  Events.subscribe_events Samples.no_repr Samples.no_int
    (Samples.ok_stream ([Spec.data_line (Samples.typed "a")] ++
                        "event: update" :: [EmptyString]))
    Samples.localhost PyNone None =
  Events.mkGenerator [Samples.type_event "a"] None.
Proof.
  rewrite (StreamFacts.other_fields_transparent Samples.no_repr Samples.no_int
    (Samples.ok_stream ([Spec.data_line (Samples.typed "a")] ++
                        "event: update" :: [EmptyString]))
    Samples.localhost PyNone None (mkResponse 200 "OK" EmptyString)
    [Spec.data_line (Samples.typed "a")] "event: update" [EmptyString]
    eq_refl eq_refl eq_refl eq_refl).
  vm_compute. reflexivity.
Defined.

Lemma heartbeat_stream_yields_nothing_witness :
  Events.subscribe_events Samples.no_repr Samples.no_int
    (Samples.ok_stream [": ping"; EmptyString; ": ping"; EmptyString])
    Samples.localhost PyNone None =
  Events.mkGenerator [] None.
Proof.
  apply (MoreFacts.heartbeat_stream_yields_nothing Samples.no_repr Samples.no_int
    (Samples.ok_stream [": ping"; EmptyString; ": ping"; EmptyString])
    Samples.localhost PyNone None (mkResponse 200 "OK" EmptyString)
    [": ping"; EmptyString; ": ping"; EmptyString] eq_refl eq_refl).
  repeat (apply Forall_cons_2; [first [left; reflexivity | right; reflexivity]|]).
  apply Forall_nil_2.
Defined.

Lemma fs_unreserved_path_unchanged_witness :
  Urllib.quote "notes-2024_v1.txt" EmptyString = "notes-2024_v1.txt".
Proof.
  exact (NamespaceFacts.fs_unreserved_path_unchanged "notes-2024_v1.txt" eq_refl).
Defined.

